(** * learn2learn.data.task_generator: few-shot task sampling

    A shallow embedding of [learn2learn/data/task_generator.py] and the
    properties of its three classes: [MetaDataset] (index of positions by
    label), [LabelEncoder] (dense renumbering of a class list) and
    [TaskGenerator] (the N-way K-shot sampler).

    Conventions of the embedding:
    - a raised Python exception is a [Raise e] result; the state reached
      when the exception is raised is kept, since the caller can observe it;
    - a Python [dict] keeps its insertion order, and [labels] is read off
      that order, so a dict is an association list with in-place update;
    - [np.random] is a process-wide generator: its state is threaded
      explicitly, as a list of raw draws;
    - [np.random.choice] draws from the array of the list it is given and
      counts in C integers: the conversion of a class list to an array is
      [np.array], given for integer labels, and a count that no C integer
      holds raises [OverflowError]. *)

From stdpp Require Import base decidable option list numbers strings.
From Stdlib Require Import ZArith Lia.

Set Default Proof Using "Type".
Open Scope Z_scope.
Open Scope nat_scope.

(** ** Exceptions and results *)

Inductive exn : Type :=
| AssertionError (msg : string)
| ValueError
| OverflowError
| KeyError
| IndexError.

#[global] Instance exn_eq_dec : EqDecision exn.
Proof. solve_decision. Defined.

Inductive result (A : Type) : Type :=
| Ok (a : A)
| Raise (e : exn).
Arguments Ok {A} a.
Arguments Raise {A} e.

#[global] Instance result_ret : MRet result := fun A a => Ok a.
#[global] Instance result_bind : MBind result := fun A B f m =>
  match m with
  | Ok a => f a
  | Raise e => Raise e
  end.

(** The names the specification gives to the failures of the module. *)
Definition DuplicateLabelError : exn :=
  AssertionError "Classes contains duplicate values".
Definition InsufficientClassesError : exn :=
  AssertionError "Ways are more than the number of classes available".
Definition InvalidClassError : exn :=
  AssertionError "classes contains a label that isn't in dataset".
Definition InsufficientShotsError : exn := ValueError.

(** Code that also reads and writes a state [S]: the state reached is
    returned with the result, also when an exception is raised. *)
Definition stateful (S A : Type) : Type := S -> result A * S.

#[global] Instance stateful_ret {S} : MRet (stateful S) :=
  fun A a s => (Ok a, s).
#[global] Instance stateful_bind {S} : MBind (stateful S) := fun A B f m s =>
  match m s with
  | (Ok a, s') => f a s'
  | (Raise e, s') => (Raise e, s')
  end.

(** Pure code that may raise, run inside stateful code. *)
Definition lift {S A : Type} (r : result A) : stateful S A :=
  fun s => (r, s).

(** A [for x in l] loop whose body may raise, threading the variables
    [b] that the body assigns. *)
Fixpoint for_in {M : Type -> Type} `{MBind M, MRet M} {A B : Type}
    (f : B -> A -> M B) (l : list A) (b : B) : M B :=
  match l with
  | [] => mret b
  | x :: l' => b' ← f b x; for_in f l' b'
  end.

(** ** Python sequences and dictionaries *)

(** [l[i]] on a list, for a non-negative [i]. *)
Definition list_getitem {A : Type} (l : list A) (i : nat) : result A :=
  match l !! i with
  | Some x => Ok x
  | None => Raise IndexError
  end.

(** [enumerate(l)]. *)
Definition enumerate {A : Type} (l : list A) : list (nat * A) :=
  imap pair l.

Abbreviation dict K V := (list (K * V)) (only parsing).

Section dict.
Context {K V : Type} `{EqDecision K}.

Fixpoint dict_get (k : K) (d : dict K V) : option V :=
  match d with
  | [] => None
  | (k', v) :: d' => if decide (k = k') then Some v else dict_get k d'
  end.

(** [d[k] = v]: an existing key keeps its place, a new one goes last. *)
Fixpoint dict_setitem (k : K) (v : V) (d : dict K V) : dict K V :=
  match d with
  | [] => [(k, v)]
  | (k', v') :: d' =>
      if decide (k = k') then (k', v) :: d'
      else (k', v') :: dict_setitem k v d'
  end.

(** [d[k]]. *)
Definition dict_getitem (d : dict K V) (k : K) : result V :=
  match dict_get k d with
  | Some v => Ok v
  | None => Raise KeyError
  end.

(** [d.update({k: v})]. *)
Definition dict_update1 (d : dict K V) (k : K) (v : V) : dict K V :=
  dict_setitem k v d.

(** [list(d.keys())]. *)
Definition dict_keys (d : dict K V) : list K := d.*1.

Definition dict_values (d : dict K V) : list V := d.*2.
End dict.

Section defaultdict.
Context {K A : Type} `{EqDecision K}.

(** [d[k]] on a [defaultdict(list)]: a missing key is first inserted
    with a fresh empty list, which is then returned. *)
Definition defaultdict_getitem (d : dict K (list A)) (k : K)
  : list A * dict K (list A) :=
  match dict_get k d with
  | Some v => (v, d)
  | None => ([], d ++ [(k, [])])
  end.

(** [d[k].append(x)]: the list fetched is the one stored in the dict. *)
Definition defaultdict_append (d : dict K (list A)) (k : K) (x : A)
  : dict K (list A) :=
  let '(v, d') := defaultdict_getitem d k in
  dict_setitem k (v ++ [x]) d'.
End defaultdict.

(** ** numpy *)

Module np.

(** [np.full(n, fill_value=x)] as a flat sequence. *)
Definition full {A : Type} (n : Z) (x : A) : result (list A) :=
  if (n <? 0)%Z then Raise ValueError else Ok (replicate (Z.to_nat n) x).

(** [np.array(l)] on a list of scalars: the elements of the array, as
    the values they are once converted to the one type of the array.
    What the conversion does depends on the type of the scalars. *)
Class Scalar (A : Type) := array : list A -> list A.

(** The conversion of a list of Python integers.  Each integer is
    first typed on its own: [int64] when it fits a C long, else [uint64]
    when it fits an unsigned one, else [object]; the array has the common
    type of its elements, which is [float64] for [int64] with [uint64]
    (and for the empty list). *)
Inductive dtype : Type := int64 | uint64 | float64 | object.

Definition discover (x : Z) : dtype :=
  if ((- 2 ^ 63 <=? x) && (x <? 2 ^ 63))%Z then int64
  else if ((2 ^ 63 <=? x) && (x <? 2 ^ 64))%Z then uint64
  else object.

Definition promote (d1 d2 : dtype) : dtype :=
  match d1, d2 with
  | object, _ | _, object => object
  | float64, _ | _, float64 => float64
  | int64, int64 => int64
  | uint64, uint64 => uint64
  | int64, uint64 | uint64, int64 => float64
  end.

Definition result_type (l : list Z) : dtype :=
  match l with
  | [] => float64
  | x :: l' => fold_left (fun d y => promote d (discover y)) l' (discover x)
  end.

(** The double nearest to an integer (ties to even, 53 significant
    bits).  Below 2^64 in magnitude it is finite and has an integral
    value; as a key of a dict or an element of a set, a float of integral
    value is the integer of that value, so the result is given as that
    integer. *)
Definition to_float64 (x : Z) : Z :=
  let n := Z.abs x in
  let bits := (Z.log2 n + 1)%Z in
  if (bits <=? 53)%Z then x
  else
    let e := (bits - 53)%Z in
    let q := (n / 2 ^ e)%Z in
    let r := (n mod 2 ^ e)%Z in
    let half := (2 ^ (e - 1))%Z in
    let q' :=
      if (r <? half)%Z then q
      else if (half <? r)%Z then (q + 1)%Z
      else if Z.even q then q else (q + 1)%Z in
    (Z.sgn x * (q' * 2 ^ e))%Z.

Definition array_int (l : list Z) : list Z :=
  match result_type l with
  | float64 => to_float64 <$> l
  | _ => l
  end.

#[global] Instance int_scalar : Scalar Z := array_int.

Module random.

(** The state of the global generator: the raw draws still to come
    (a draw from an exhausted state is 0). *)
Definition RandomState : Type := list nat.

Definition next (s : RandomState) : nat * RandomState :=
  match s with
  | [] => (0, [])
  | r :: s' => (r, s')
  end.

(** The first [k] elements of a random rearrangement of [pool], taken
    out of it one after the other; the last element left needs no random
    draw. *)
Fixpoint draw {A : Type} (k : nat) (pool : list A) (s : RandomState)
  : list A * RandomState :=
  match k with
  | 0 => ([], s)
  | S k' =>
      match pool with
      | [] => ([], s)
      | [x] => ([x], s)
      | _ =>
          let '(r, s') := next s in
          let j := r mod length pool in
          match pool !! j with
          | Some x =>
              let '(xs, s'') := draw k' (delete j pool) s' in
              (x :: xs, s'')
          | None => ([], s')
          end
      end
  end.

(** [np.random.permutation] of the elements of an array. *)
Definition permutation {A : Type} (a : list A) (s : RandomState)
  : list A * RandomState :=
  draw (length a) a s.

(** [np.random.choice(a, size, replace=False)] for a one-dimensional
    array [a].  numpy refuses with [ValueError] an empty population
    unless nothing is taken; it then computes the size as a C integer,
    which raises [OverflowError] outside [-2^63, 2^64) and wraps a size
    from 2^63 on to a negative one, and refuses with [ValueError] a size
    above the population or negative; else it returns the first [size]
    elements of a permutation of the whole population.  A population has
    fewer than 2^63 elements, so a size between 0 and its length passes
    the conversion: that case is tested first here, which leaves the
    refusals to the sizes that numpy refuses. *)
Definition choice {A : Type} (a : list A) (size : Z) (s : RandomState)
  : result (list A) * RandomState :=
  let pop_size := length a in
  if bool_decide (pop_size = 0) && negb (size =? 0)%Z then
    (Raise ValueError, s)
  else if ((0 <=? size) && (size <=? Z.of_nat pop_size))%Z then
    let '(idx, s') := permutation a s in
    (Ok (take (Z.to_nat size) idx), s')
  else if ((size <? - 2 ^ 63) || (2 ^ 64 <=? size))%Z then
    (Raise OverflowError, s)
  else (Raise ValueError, s).

End random.
End np.

(** ** The classes of the module *)

Module SampleDataset.
Section defs.
Context {T L : Type}.

Record t : Type := mk {
  data : list T;
  label : list nat;
  sampled_classes : list L
}.

Definition __init__ (data : list T) (labels : list nat)
    (sampled_classes : list L) : t :=
  mk data labels sampled_classes.

Definition __len__ (self : t) : nat := length (data self).

Definition __getitem__ (self : t) (idx : nat) : result (T * nat) :=
  d ← list_getitem (data self) idx;
  l ← list_getitem (label self) idx;
  Ok (d, l).
End defs.
Arguments t : clear implicits.
End SampleDataset.

Module MetaDataset.
Section defs.
Context {T L : Type} `{EqDecision L}.

(** The wrapped dataset: any finite sequence of (data, target). *)
Record t : Type := mk {
  dataset : list (T * L);
  labels_to_indices : dict L (list nat);
  labels : list L
}.

Definition get_dict_of_labels_to_indices (dataset : list (T * L))
  : result (dict L (list nat)) :=
  for_in
    (fun classes_to_indices i =>
       item ← list_getitem dataset i;
       Ok (defaultdict_append classes_to_indices item.2 i))
    (seq 0 (length dataset)) [].

Definition __init__ (dataset : list (T * L)) : result t :=
  labels_to_indices ← get_dict_of_labels_to_indices dataset;
  Ok (mk dataset labels_to_indices (dict_keys labels_to_indices)).

Definition __getitem__ (self : t) (item : nat) : result (T * L) :=
  list_getitem (dataset self) item.

Definition __len__ (self : t) : nat := length (dataset self).
End defs.
Arguments t : clear implicits.
End MetaDataset.

Module LabelEncoder.
Section defs.
Context {L : Type} `{EqDecision L}.

Record t : Type := mk {
  class_to_idx : dict L nat;
  idx_to_class : dict nat L
}.

(** [set(classes)] is modelled by [remove_dups classes]. *)
Definition __init__ (classes : list L) : result t :=
  if bool_decide (length (remove_dups classes) = length classes) then
    Ok (fold_left
          (fun self '(idx, old_class) =>
             mk (dict_update1 (class_to_idx self) old_class idx)
                (dict_update1 (idx_to_class self) idx old_class))
          (enumerate classes) (mk [] []))
  else Raise DuplicateLabelError.
End defs.
Arguments t : clear implicits.
End LabelEncoder.

Module TaskGenerator.
Section defs.
Context {T L : Type} `{EqDecision L} `{np.Scalar L}.

Record t : Type := mk {
  dataset : MetaDataset.t T L;
  ways : Z;
  classes : list L
}.

(** The default of the [ways] argument of the constructor and of the
    [shots] argument of [sample]. *)
Definition default_ways : Z := 3.
Definition default_shots : Z := 1.

Definition _check_classes (self : t) (classes : list L) : result unit :=
  if bool_decide
       (length (list_difference (remove_dups classes)
                  (remove_dups (MetaDataset.labels (dataset self)))) = 0)
  then Ok ()
  else Raise InvalidClassError.

(** [classes0] is the [classes] argument ([None] when it is left out). *)
Definition __init__ (dataset : MetaDataset.t T L)
    (classes0 : option (list L)) (ways : Z) : result t :=
  let self :=
    mk dataset ways
       (match classes0 with
        | None => MetaDataset.labels dataset
        | Some classes => classes
        end) in
  if bool_decide (Z.of_nat (length (classes self)) >= ways)%Z
  then _ ← _check_classes self (classes self); Ok self
  else Raise InsufficientClassesError.

(** What a call of [sample] can read and write: the sampler object,
    reached through [self] (its [dataset] field is the one
    [MetaDataset] object the caller also holds), and the global
    generator of numpy. *)
Record world : Type := World {
  self : t;
  np_random : np.random.RandomState
}.

Definition get_self : stateful world t := fun w => (Ok (self w), w).

(** [self.dataset.labels_to_indices[k]]: the index is a
    [defaultdict(list)], so the lookup may write to it. *)
Definition labels_to_indices_getitem (k : L) : stateful world (list nat) :=
  fun w =>
    let md := dataset (self w) in
    let '(v, d') :=
      defaultdict_getitem (MetaDataset.labels_to_indices md) k in
    (Ok v,
     World (mk (MetaDataset.mk (MetaDataset.dataset md) d'
                  (MetaDataset.labels md))
               (ways (self w)) (classes (self w)))
           (np_random w)).

(** [np.random.choice(a, size, replace=False)] on an array [a]. *)
Definition np_random_choice {A : Type} (a : list A) (size : Z)
  : stateful world (list A) :=
  fun w =>
    let '(r, s') := np.random.choice a size (np_random w) in
    (r, World (self w) s').

(** [classes0] is the [classes] argument ([None] when it is left out).
    numpy draws from the array of the list it is given: [np.array] of the
    configured classes, and, for the positions of a class, their list as
    it is, since positions of the dataset are below its length and are
    converted to themselves. *)
Definition sample (classes0 : option (list L)) (shots : Z)
  : stateful world (SampleDataset.t T L) :=
  classes_to_sample ←
    match classes0 with
    | None =>
        self ← get_self;
        _ ← lift (_check_classes self (classes self));
        np_random_choice (np.array (classes self)) (ways self)
    | Some classes => mret classes
    end;
  label_encoder ← lift (LabelEncoder.__init__ classes_to_sample);
  '(data_indices, data_labels) ←
    for_in
      (fun '(data_indices, data_labels) _class =>
         pool ← labels_to_indices_getitem _class;
         chosen ← np_random_choice pool shots;
         idx ← lift (dict_getitem
                       (LabelEncoder.class_to_idx label_encoder) _class);
         filled ← lift (np.full shots idx);
         mret (data_indices ++ chosen, data_labels ++ filled))
      classes_to_sample ([], []);
  self ← get_self;
  data ← lift (mapM (fun idx =>
                       item ← MetaDataset.__getitem__ (dataset self) idx;
                       Ok item.1)
                    data_indices);
  mret (SampleDataset.__init__ data data_labels classes_to_sample).
End defs.
Arguments t : clear implicits.
Arguments world : clear implicits.
End TaskGenerator.

(** ** Notions used to state the properties *)

(** The arrangements of a population: the sequences obtained by taking
    elements out of it one after the other. *)
Inductive arrangement {A : Type} : list A → list A → Prop :=
| arrangement_nil pool : arrangement [] pool
| arrangement_cons j x xs pool :
    pool !! j = Some x →
    arrangement xs (delete j pool) →
    arrangement (x :: xs) pool.

Section defaultdict_notions.
Context {K A : Type} `{EqDecision K}.
Implicit Types (d : list (K * list A)) (k : K).

(** What a lookup that never writes would return. *)
Definition peek d k : list A := default [] (dict_get k d).
End defaultdict_notions.

Section MetaDataset_notions.
Context {T L : Type} `{EqDecision L}.
Implicit Types (ds : list (T * L)) (d : list (L * list nat)).
Implicit Types (md : MetaDataset.t T L).

(** The body of the scan of [get_dict_of_labels_to_indices]. *)
Definition scan_step ds d (i : nat) : result (list (L * list nat)) :=
  item ← list_getitem ds i; Ok (defaultdict_append d item.2 i).

(** What the index holds once positions [0..n-1] have been filed. *)
Record index_upto ds (n : nat) d : Prop := {
  index_keys_NoDup : NoDup (dict_keys d);
  index_keys : ∀ l, l ∈ dict_keys d ↔ ∃ i x, i < n ∧ ds !! i = Some (x, l);
  index_partition : concat (dict_values d) ≡ₚ seq 0 n;
  index_filed : ∀ l i, i ∈ peek d l ↔ i < n ∧ ∃ x, ds !! i = Some (x, l)
}.

(** The dataset objects that the constructor can build. *)
Definition constructed (md : MetaDataset.t T L) : Prop :=
  MetaDataset.__init__ (MetaDataset.dataset md) = Ok md.
End MetaDataset_notions.

Section LabelEncoder_notions.
Context {L : Type} `{EqDecision L}.
Implicit Types (classes : list L) (self : LabelEncoder.t L).

(** The body of the loop of the constructor, and the encoder it builds. *)
Definition encode_step self (p : nat * L) : LabelEncoder.t L :=
  let '(idx, old_class) := p in
  LabelEncoder.mk
    (dict_update1 (LabelEncoder.class_to_idx self) old_class idx)
    (dict_update1 (LabelEncoder.idx_to_class self) idx old_class).

Definition encoded classes : LabelEncoder.t L :=
  fold_left encode_step (enumerate classes) (LabelEncoder.mk [] []).
End LabelEncoder_notions.

Section TaskGenerator_notions.
Context {T L : Type} `{EqDecision L} `{np.Scalar L}.
Implicit Types (w : TaskGenerator.world T L) (self : TaskGenerator.t T L).
Implicit Types (md : MetaDataset.t T L) (cs classes : list L) (shots : Z).

(** The index of the dataset of the sampler, and the positions it holds
    for a class. *)
Definition index w : list (L * list nat) :=
  MetaDataset.labels_to_indices (TaskGenerator.dataset (TaskGenerator.self w)).

Definition pool w (c : L) : list nat := peek (index w) c.

(** The world once [self.dataset.labels_to_indices[c]] has been read. *)
Definition touch (c : L) w : TaskGenerator.world T L :=
  (TaskGenerator.labels_to_indices_getitem c w).2.

(** What no step of [sample] writes: every field but the index and the
    generator, and the positions held for each class. *)
Record frame w w' : Prop := {
  frame_ways :
    TaskGenerator.ways (TaskGenerator.self w')
    = TaskGenerator.ways (TaskGenerator.self w);
  frame_classes :
    TaskGenerator.classes (TaskGenerator.self w')
    = TaskGenerator.classes (TaskGenerator.self w);
  frame_dataset :
    MetaDataset.dataset (TaskGenerator.dataset (TaskGenerator.self w'))
    = MetaDataset.dataset (TaskGenerator.dataset (TaskGenerator.self w));
  frame_labels :
    MetaDataset.labels (TaskGenerator.dataset (TaskGenerator.self w'))
    = MetaDataset.labels (TaskGenerator.dataset (TaskGenerator.self w));
  frame_pool : ∀ c, pool w' c = pool w c
}.

(** The body of the loop over the classes of an episode. *)
Definition class_step (label_encoder : LabelEncoder.t L) shots
  : list nat * list nat → L →
    stateful (TaskGenerator.world T L) (list nat * list nat) :=
  λ '(data_indices, data_labels) _class,
  pool ← TaskGenerator.labels_to_indices_getitem _class;
  chosen ← TaskGenerator.np_random_choice pool shots;
  idx ← lift (dict_getitem
                (LabelEncoder.class_to_idx label_encoder) _class);
  filled ← lift (np.full shots idx);
  mret (data_indices ++ chosen, data_labels ++ filled).

(** The comprehension that fetches the data of the positions drawn. *)
Definition fetch md (idx : nat) : result T :=
  item ← MetaDataset.__getitem__ md idx; Ok item.1.

(** The first step of [sample]: the classes of the episode. *)
Definition classes_to_sample (classes0 : option (list L))
  : stateful (TaskGenerator.world T L) (list L) :=
  match classes0 with
  | None =>
      self ← TaskGenerator.get_self;
      _ ← lift (TaskGenerator._check_classes self (TaskGenerator.classes self));
      TaskGenerator.np_random_choice
        (np.array (TaskGenerator.classes self)) (TaskGenerator.ways self)
  | Some classes => mret classes
  end.

(** The label sequence of an episode of [n] classes: each dense index
    [0, ..., n-1] in turn, [shots] times in a row. *)
Definition remapped (n : nat) shots : list nat :=
  concat (replicate (Z.to_nat shots) <$> seq 0 n).

(** The positions that the index holds are positions of the dataset. *)
Definition index_in_range w : Prop :=
  ∀ c i, i ∈ pool w c →
         is_Some (MetaDataset.dataset
                    (TaskGenerator.dataset (TaskGenerator.self w)) !! i).
End TaskGenerator_notions.

(** ** Data of the worked examples *)

(** Ten items labelled 0,0,0,1,1,1,2,2,2,2, with payloads 100..109. *)
Definition ds10 : list (nat * Z) :=
  [(100, 0%Z); (101, 0%Z); (102, 0%Z); (103, 1%Z); (104, 1%Z); (105, 1%Z);
   (106, 2%Z); (107, 2%Z); (108, 2%Z); (109, 2%Z)].

Definition md10 : MetaDataset.t nat Z :=
  MetaDataset.mk ds10
    [(0%Z, [0; 1; 2]); (1%Z, [3; 4; 5]); (2%Z, [6; 7; 8; 9])]
    [0%Z; 1%Z; 2%Z].

Definition tg10 (ways : Z) : TaskGenerator.t nat Z :=
  TaskGenerator.mk md10 ways [0%Z; 1%Z; 2%Z].

Definition world10 (ways : Z) (s : np.random.RandomState)
  : TaskGenerator.world nat Z :=
  TaskGenerator.World (tg10 ways) s.

Definition draws : np.random.RandomState := [2; 1; 2; 2; 1].

(** The 2-way sampler once [sample(classes=[5], shots=1)] has failed. *)
Definition world10_after_5 : TaskGenerator.world nat Z :=
  TaskGenerator.World
    (TaskGenerator.mk
       (MetaDataset.mk ds10
          [(0%Z, [0; 1; 2]); (1%Z, [3; 4; 5]); (2%Z, [6; 7; 8; 9]); (5%Z, [])]
          [0%Z; 1%Z; 2%Z])
       2 [0%Z; 1%Z; 2%Z])
    draws.

(** [sample(shots=2)] on a 2-way sampler, and [sample(classes=[0,2],
    shots=3)] on a 3-way one. *)
Definition episode_drawn : SampleDataset.t nat Z :=
  SampleDataset.mk [108; 109; 103; 104] [0; 0; 1; 1] [2%Z; 1%Z].

Definition episode_0_2 : SampleDataset.t nat Z :=
  SampleDataset.mk [102; 101; 100; 108; 109; 107] [0; 0; 0; 1; 1; 1]
    [0%Z; 2%Z].

(** Two items whose labels, [2 ^ 63 + 1] and [-1], have no common
    integer type in numpy: the array of the two is of [float64], and the
    first becomes [2 ^ 63]. *)
Definition ds_wide : list (nat * Z) :=
  [(100, (2 ^ 63 + 1)%Z); (101, (-1)%Z)].

Definition md_wide : MetaDataset.t nat Z :=
  MetaDataset.mk ds_wide [((2 ^ 63 + 1)%Z, [0]); ((-1)%Z, [1])]
    [(2 ^ 63 + 1)%Z; (-1)%Z].

Definition tg_wide : TaskGenerator.t nat Z :=
  TaskGenerator.mk md_wide 2 [(2 ^ 63 + 1)%Z; (-1)%Z].

(** * Properties *)

(** ** Running stateful code *)

Lemma bind_run {S A B : Type} (m : stateful S A) (f : A -> stateful S B) s :
  (m ≫= f) s =
  match m s with
  | (Ok a, s') => f a s'
  | (Raise e, s') => (Raise e, s')
  end.
Proof. reflexivity. Qed.

Lemma for_in_cons_run {S A B : Type} (f : B -> A -> stateful S B) x l b s :
  for_in f (x :: l) b s =
  match f b x s with
  | (Ok b', s') => for_in f l b' s'
  | (Raise e, s') => (Raise e, s')
  end.
Proof. reflexivity. Qed.

Lemma mapM_cons_run {A B : Type} (f : A -> result B) x l :
  mapM f (x :: l) =
  match f x with
  | Ok y => match mapM f l with Ok k => Ok (y :: k) | Raise e => Raise e end
  | Raise e => Raise e
  end.
Proof. reflexivity. Qed.

Lemma for_in_app {A B : Type} (f : B -> A -> result B) l1 l2 b :
  for_in f (l1 ++ l2) b = (for_in f l1 b ≫= for_in f l2).
Proof.
  revert b. induction l1 as [|x l1 IH]; intros b; simpl; [done|].
  destruct (f b x) as [b'|e]; simpl; [apply IH | done].
Qed.

(** ** Lists *)

Lemma elem_of_concat {A : Type} (x : A) (ls : list (list A)) :
  x ∈ concat ls ↔ ∃ l, x ∈ l ∧ l ∈ ls.
Proof.
  induction ls as [|l ls IH]; simpl.
  - split; [by intros ?%elem_of_nil | by intros (? & _ & ?%elem_of_nil)].
  - rewrite elem_of_app, IH. split.
    + intros [Hx | (l' & Hx & Hl')].
      * exists l. split; [done | apply list_elem_of_here].
      * exists l'. split; [done | by apply list_elem_of_further].
    + intros (l' & Hx & [-> | Hl']%elem_of_cons); [by left|].
      right. by exists l'.
Qed.

Lemma submseteq_NoDup {A : Type} (l k : list A) : l ⊆+ k → NoDup k → NoDup l.
Proof.
  intros (k' & ->)%submseteq_Permutation Hnd. by apply NoDup_app in Hnd as [? _].
Qed.

(** ** Dictionaries *)

Section dict_facts.
Context {K V : Type} `{EqDecision K}.
Implicit Types (d : list (K * V)) (k : K) (v : V).

Lemma dict_get_setitem_eq d k v :
  dict_get k (dict_setitem k v d) = Some v.
Proof.
  induction d as [|[k' v'] d IH]; simpl.
  - by rewrite decide_True.
  - destruct (decide (k = k')) as [->|Hne]; simpl.
    + by rewrite decide_True.
    + by rewrite decide_False.
Qed.

Lemma dict_get_setitem_ne d k k' v :
  k ≠ k' → dict_get k' (dict_setitem k v d) = dict_get k' d.
Proof.
  intros Hne. induction d as [|[k0 v0] d IH]; simpl.
  - by rewrite decide_False.
  - destruct (decide (k = k0)) as [->|Hne0]; simpl.
    + by rewrite !decide_False.
    + by rewrite IH.
Qed.

Lemma dict_get_None d k : dict_get k d = None ↔ k ∉ dict_keys d.
Proof.
  unfold dict_keys. induction d as [|[k' v'] d IH]; simpl.
  - split; [intros _; apply not_elem_of_nil | done].
  - rewrite not_elem_of_cons. destruct (decide (k = k')) as [->|Hne].
    + split; [done | by intros [? _]].
    + rewrite IH. tauto.
Qed.

Lemma dict_get_app d1 d2 k :
  dict_get k (d1 ++ d2) =
  match dict_get k d1 with Some v => Some v | None => dict_get k d2 end.
Proof.
  induction d1 as [|[k' v'] d1 IH]; simpl; [done|].
  by destruct (decide (k = k')).
Qed.

Lemma dict_keys_setitem_present d k v :
  k ∈ dict_keys d → dict_keys (dict_setitem k v d) = dict_keys d.
Proof.
  unfold dict_keys. induction d as [|[k' v'] d IH]; simpl.
  - by intros ?%elem_of_nil.
  - intros Hin. destruct (decide (k = k')) as [->|Hne]; simpl; [done|].
    f_equal. apply IH. apply elem_of_cons in Hin as [?|?]; done.
Qed.

Lemma dict_setitem_absent d k v :
  k ∉ dict_keys d → dict_setitem k v d = d ++ [(k, v)].
Proof.
  unfold dict_keys. induction d as [|[k' v'] d IH]; simpl; [done|].
  rewrite not_elem_of_cons. intros [Hne Hnin].
  rewrite decide_False by done. by rewrite IH.
Qed.

(** Replacing the value of a key that is present replaces one entry. *)
Lemma dict_setitem_present d k v0 v :
  dict_get k d = Some v0 →
  ∃ d1 d2, d = d1 ++ (k, v0) :: d2 ∧ dict_setitem k v d = d1 ++ (k, v) :: d2.
Proof.
  induction d as [|[k' v'] d IH]; simpl; [done|].
  destruct (decide (k = k')) as [->|Hne].
  - intros [= ->]. by exists [], d.
  - intros (d1 & d2 & -> & ->)%IH. by exists ((k', v') :: d1), d2.
Qed.
End dict_facts.

Section defaultdict_facts.
Context {K A : Type} `{EqDecision K}.
Implicit Types (d : list (K * list A)) (k : K).

Lemma defaultdict_getitem_fst d k : (defaultdict_getitem d k).1 = peek d k.
Proof. unfold defaultdict_getitem, peek. by destruct (dict_get k d). Qed.

Lemma defaultdict_getitem_present d k :
  k ∈ dict_keys d → (defaultdict_getitem d k).2 = d.
Proof.
  unfold defaultdict_getitem. destruct (dict_get k d) eqn:E; [done|].
  by intros ?%dict_get_None.
Qed.

Lemma defaultdict_getitem_absent d k :
  k ∉ dict_keys d → (defaultdict_getitem d k).2 = d ++ [(k, [])].
Proof.
  intros Hnin%dict_get_None. unfold defaultdict_getitem. by rewrite Hnin.
Qed.

Lemma peek_defaultdict_getitem d k k' :
  peek (defaultdict_getitem d k).2 k' = peek d k'.
Proof.
  unfold defaultdict_getitem, peek.
  destruct (dict_get k d) eqn:E; simpl; [done|].
  rewrite dict_get_app. destruct (dict_get k' d); simpl; [done|].
  by destruct (decide (k' = k)).
Qed.

Lemma dict_get_defaultdict_append d k k' x :
  dict_get k' (defaultdict_append d k x) =
  if decide (k = k') then Some (peek d k ++ [x]) else dict_get k' d.
Proof.
  unfold defaultdict_append, defaultdict_getitem, peek.
  destruct (dict_get k d) as [v|] eqn:E; simpl.
  - destruct (decide (k = k')) as [<-|Hne].
    + apply dict_get_setitem_eq.
    + by apply dict_get_setitem_ne.
  - destruct (decide (k = k')) as [<-|Hne].
    + apply dict_get_setitem_eq.
    + rewrite dict_get_setitem_ne, dict_get_app by done.
      destruct (dict_get k' d); simpl; [done|]. by rewrite decide_False.
Qed.

Lemma dict_keys_defaultdict_append d k x :
  dict_keys (defaultdict_append d k x) =
  if decide (k ∈ dict_keys d) then dict_keys d else dict_keys d ++ [k].
Proof.
  unfold defaultdict_append, defaultdict_getitem.
  destruct (dict_get k d) as [v|] eqn:E.
  - assert (k ∈ dict_keys d) as Hin.
    { destruct (decide (k ∈ dict_keys d)) as [|Hn]; [done|].
      apply dict_get_None in Hn. congruence. }
    rewrite decide_True by done. by apply dict_keys_setitem_present.
  - apply dict_get_None in E as Hnin. rewrite decide_False by done.
    rewrite dict_keys_setitem_present.
    + unfold dict_keys. by rewrite fmap_app.
    + unfold dict_keys. rewrite fmap_app, elem_of_app. right.
      by apply list_elem_of_singleton.
Qed.

Lemma dict_values_defaultdict_append d k x :
  concat (dict_values (defaultdict_append d k x))
  ≡ₚ x :: concat (dict_values d).
Proof.
  unfold defaultdict_append, defaultdict_getitem, dict_values.
  destruct (dict_get k d) as [v|] eqn:E.
  - destruct (dict_setitem_present d k v (v ++ [x]) E)
      as (d1 & d2 & Hd & ->).
    rewrite Hd, !fmap_app, !concat_app. simpl.
    rewrite <- (assoc_L (++) v). rewrite (Permutation_app_comm [x]).
    rewrite !(assoc_L (++)). by rewrite <- Permutation_cons_append.
  - apply dict_get_None in E as Hnin.
    assert (dict_get k (d ++ [(k, [])]) = Some ([] : list A)) as E'.
    { rewrite dict_get_app, E. simpl. by rewrite decide_True. }
    destruct (dict_setitem_present _ k [] ([] ++ [x]) E')
      as (d1 & d2 & Hd & ->).
    transitivity (x :: concat ((d1 ++ (k, []) :: d2).*2)).
    + rewrite !fmap_app, !concat_app. simpl.
      by rewrite <- Permutation_middle.
    + rewrite <- Hd, fmap_app, concat_app. simpl. by rewrite !app_nil_r.
Qed.
End defaultdict_facts.

(** ** MetaDataset: the index of positions by label *)

Section MetaDataset_facts.
Context {T L : Type} `{EqDecision L}.
Implicit Types (ds : list (T * L)) (d : list (L * list nat)).
Implicit Types (md : MetaDataset.t T L).

Lemma index_upto_0 ds : index_upto ds 0 [].
Proof.
  split; simpl.
  - constructor.
  - intros l. split; [by intros ?%elem_of_nil | intros (? & ? & ? & _); lia].
  - done.
  - intros l i. unfold peek; simpl.
    split; [by intros ?%elem_of_nil | intros [? _]; lia].
Qed.

Lemma index_upto_step ds n d x l :
  ds !! n = Some (x, l) →
  index_upto ds n d →
  index_upto ds (S n) (defaultdict_append d l n).
Proof.
  intros Hn [Hnd Hkeys Hperm Hfiled]. split.
  - rewrite dict_keys_defaultdict_append. case_decide; [done|].
    apply NoDup_app. split_and!; [done| |apply NoDup_singleton].
    intros k Hk ->%list_elem_of_singleton. done.
  - intros l'. rewrite dict_keys_defaultdict_append. split.
    + intros Hin.
      assert (l' ∈ dict_keys d ∨ l' = l) as [Hd | ->].
      { case_decide; [by left|].
        apply elem_of_app in Hin as [?|?%list_elem_of_singleton]; auto. }
      * apply Hkeys in Hd as (i & y & ? & ?). exists i, y. split; [lia|done].
      * exists n, x. split; [lia|done].
    + intros (i & y & Hi & Hy).
      destruct (decide (i = n)) as [->|Hne].
      * assert (l' = l) as -> by congruence.
        case_decide; [done|]. apply elem_of_app. right.
        by apply list_elem_of_singleton.
      * assert (l' ∈ dict_keys d) as Hd.
        { apply Hkeys. exists i, y. split; [lia|done]. }
        case_decide; [done|]. apply elem_of_app. by left.
  - rewrite dict_values_defaultdict_append, Hperm, seq_S. simpl.
    apply Permutation_cons_append.
  - intros l' i. unfold peek at 1. rewrite dict_get_defaultdict_append.
    destruct (decide (l = l')) as [<-|Hne]; simpl.
    + rewrite elem_of_app, list_elem_of_singleton, Hfiled. split.
      * intros [[? ?] | ->]; [split; [lia|done]|].
        split; [lia|]. by exists x.
      * intros [Hi Hx]. destruct (decide (i = n)) as [->|?]; [by right|].
        left. split; [lia|done].
    + fold (peek d l'). rewrite Hfiled. split.
      * intros [? ?]. split; [lia|done].
      * intros [Hi [y Hy]]. split; [|by exists y].
        destruct (decide (i = n)) as [->|?]; [congruence|lia].
Qed.

Lemma scan_prefix ds n :
  n ≤ length ds →
  ∃ d, for_in (scan_step ds) (seq 0 n) [] = Ok d ∧ index_upto ds n d.
Proof.
  induction n as [|n IH]; intros Hn.
  - exists []. split; [done | apply index_upto_0].
  - destruct IH as (d & Hd & Hinv); [lia|].
    destruct (lookup_lt_is_Some_2 ds n) as [[x l] Hx]; [lia|].
    exists (defaultdict_append d l n). split.
    + rewrite seq_S, for_in_app, Hd. simpl.
      unfold scan_step, list_getitem. by rewrite Hx.
    + by eapply index_upto_step.
Qed.

Lemma get_dict_of_labels_to_indices_spec ds :
  ∃ d, MetaDataset.get_dict_of_labels_to_indices ds = Ok d
       ∧ index_upto ds (length ds) d.
Proof. by apply scan_prefix. Qed.

Lemma MetaDataset_init_spec ds :
  ∃ d, MetaDataset.__init__ ds = Ok (MetaDataset.mk ds d (dict_keys d))
       ∧ index_upto ds (length ds) d.
Proof.
  destruct (get_dict_of_labels_to_indices_spec ds) as (d & Hd & Hinv).
  exists d. split; [|done]. unfold MetaDataset.__init__. by rewrite Hd.
Qed.

Lemma constructed_index md :
  constructed md →
  MetaDataset.labels md = dict_keys (MetaDataset.labels_to_indices md) ∧
  index_upto (MetaDataset.dataset md) (length (MetaDataset.dataset md))
    (MetaDataset.labels_to_indices md).
Proof.
  unfold constructed. intros Hc.
  destruct (MetaDataset_init_spec (MetaDataset.dataset md))
    as (d & Hd & Hinv).
  rewrite Hd in Hc. injection Hc as <-. by simpl.
Qed.

(** C7. For every wrapped dataset, construction of the [MetaDataset]
    succeeds and leaves in [labels_to_indices] a partition of the
    positions: the value lists, put end to end, are a rearrangement of
    [0, ..., length-1] (so their union is that set and no position
    occurs twice, in one list or in two), and a position is in the list
    of a label exactly when the wrapped dataset has that label there. *)
Theorem C7_labels_to_indices_partition ds :
  ∃ md, MetaDataset.__init__ ds = Ok md
    ∧ MetaDataset.dataset md = ds
    ∧ NoDup (dict_keys (MetaDataset.labels_to_indices md))
    ∧ concat (dict_values (MetaDataset.labels_to_indices md))
        ≡ₚ seq 0 (length ds)
    ∧ (∀ i, i ∈ concat (dict_values (MetaDataset.labels_to_indices md))
            ↔ i < length ds)
    ∧ NoDup (concat (dict_values (MetaDataset.labels_to_indices md)))
    ∧ (∀ l i, i ∈ peek (MetaDataset.labels_to_indices md) l
              ↔ ∃ x, ds !! i = Some (x, l)).
Proof.
  destruct (MetaDataset_init_spec ds) as (d & Hd & [Hnd Hkeys Hperm Hfiled]).
  eexists. split; [exact Hd|]. simpl. split_and!; try done.
  - intros i. rewrite Hperm, elem_of_seq. lia.
  - rewrite Hperm. apply NoDup_seq.
  - intros l i. rewrite Hfiled. split; [by intros [_ ?]|].
    intros [x Hx]. split; [|by exists x]. by eapply lookup_lt_Some.
Qed.
End MetaDataset_facts.

(** ** LabelEncoder: the dense renumbering of a class list *)

Section LabelEncoder_facts.
Context {L : Type} `{EqDecision L}.
Implicit Types (classes : list L) (self : LabelEncoder.t L).

Lemma remove_dups_length_le classes :
  length (remove_dups classes) ≤ length classes.
Proof.
  induction classes as [|c classes IH]; simpl; [done|].
  case_decide; simpl; lia.
Qed.

(** [len(set(classes)) == len(classes)] tests that no label repeats. *)
Lemma remove_dups_length_NoDup classes :
  length (remove_dups classes) = length classes ↔ NoDup classes.
Proof.
  induction classes as [|c classes IH]; simpl.
  - split; [constructor | done].
  - rewrite NoDup_cons. pose proof (remove_dups_length_le classes).
    case_decide; simpl.
    + split; [lia | tauto].
    + rewrite <- IH. split; [intros [=]; by split | intros [_ ->]; done].
Qed.

Lemma LabelEncoder_init_NoDup classes :
  NoDup classes → LabelEncoder.__init__ classes = Ok (encoded classes).
Proof.
  intros Hnd%remove_dups_length_NoDup. unfold LabelEncoder.__init__.
  by rewrite bool_decide_eq_true_2.
Qed.

Lemma LabelEncoder_init_dup classes :
  ¬ NoDup classes →
  LabelEncoder.__init__ classes = Raise DuplicateLabelError.
Proof.
  intros Hd. unfold LabelEncoder.__init__.
  rewrite bool_decide_eq_false_2; [done|].
  by rewrite remove_dups_length_NoDup.
Qed.

Lemma LabelEncoder_init_Ok classes self :
  LabelEncoder.__init__ classes = Ok self →
  NoDup classes ∧ self = encoded classes.
Proof.
  destruct (decide (NoDup classes)) as [Hnd|Hd].
  - rewrite LabelEncoder_init_NoDup by done. by intros [= <-].
  - by rewrite LabelEncoder_init_dup.
Qed.

Lemma encoded_snoc classes c :
  encoded (classes ++ [c]) = encode_step (encoded classes) (length classes, c).
Proof.
  unfold encoded, enumerate. rewrite imap_app, fold_left_app. simpl.
  by rewrite Nat.add_0_r.
Qed.

(** Each index finds its class; without repeats, each class its index. *)
Lemma encoded_idx_to_class classes i :
  dict_get i (LabelEncoder.idx_to_class (encoded classes)) = classes !! i.
Proof.
  induction classes as [|c classes IH] using rev_ind; [done|].
  rewrite encoded_snoc. simpl. unfold dict_update1.
  destruct (decide (length classes = i)) as [<-|Hne].
  - rewrite dict_get_setitem_eq, lookup_app_r by lia.
    by rewrite Nat.sub_diag.
  - rewrite dict_get_setitem_ne, IH by done.
    destruct (decide (i < length classes)).
    + by rewrite lookup_app_l.
    + rewrite !lookup_ge_None_2; [done| |lia].
      rewrite length_app. simpl. lia.
Qed.

Lemma encoded_class_to_idx classes i c :
  NoDup classes → classes !! i = Some c →
  dict_get c (LabelEncoder.class_to_idx (encoded classes)) = Some i.
Proof.
  revert i. induction classes as [|c' classes IH] using rev_ind;
    intros i Hnd Hi; [done|].
  apply NoDup_app in Hnd as (Hnd & Hfresh & _).
  rewrite encoded_snoc. simpl. unfold dict_update1.
  destruct (decide (i < length classes)) as [Hlt|Hge].
  - rewrite lookup_app_l in Hi by done.
    rewrite dict_get_setitem_ne; [by apply IH|].
    intros ->. eapply Hfresh; [by eapply list_elem_of_lookup_2|].
    by apply list_elem_of_singleton.
  - apply lookup_lt_Some in Hi as Hlen. rewrite length_app in Hlen.
    simpl in Hlen. assert (i = length classes) as -> by lia.
    rewrite lookup_app_r, Nat.sub_diag in Hi by lia.
    injection Hi as ->. apply dict_get_setitem_eq.
Qed.

(** C9. For a [LabelEncoder] built from a class list without repeats
    and every dense index [i] below the number of classes, looking up
    in [class_to_idx] (toIndex) the class that [idx_to_class] (toLabel)
    gives for [i] returns [i]; that class is the one at position [i] of
    the list. *)
Theorem C9_toIndex_toLabel_roundtrip classes i :
  NoDup classes → i < length classes →
  ∃ self c,
    LabelEncoder.__init__ classes = Ok self
    ∧ classes !! i = Some c
    ∧ dict_getitem (LabelEncoder.idx_to_class self) i = Ok c
    ∧ dict_getitem (LabelEncoder.class_to_idx self) c = Ok i.
Proof.
  intros Hnd Hi. destruct (lookup_lt_is_Some_2 classes i Hi) as [c Hc].
  exists (encoded classes), c.
  split; [by apply LabelEncoder_init_NoDup|]. split; [done|].
  unfold dict_getitem.
  by rewrite encoded_idx_to_class, Hc, (encoded_class_to_idx _ i).
Qed.
End LabelEncoder_facts.

(** ** numpy: sampling without replacement *)

Section choice_facts.
Context {A : Type}.
Implicit Types (a pool xs : list A) (s : np.random.RandomState).

Lemma draw_S_many k (x y : A) p s :
  np.random.draw (S k) (x :: y :: p) s =
  let '(r, s') := np.random.next s in
  let j := r mod length (x :: y :: p) in
  match (x :: y :: p) !! j with
  | Some z =>
      let '(xs, s'') := np.random.draw k (delete j (x :: y :: p)) s' in
      (z :: xs, s'')
  | None => ([], s')
  end.
Proof. reflexivity. Qed.

Lemma draw_spec k pool s :
  k ≤ length pool →
  length (np.random.draw k pool s).1 = k ∧ (np.random.draw k pool s).1 ⊆+ pool.
Proof.
  revert pool s. induction k as [|k IH]; intros pool s Hk.
  { split; [done | apply submseteq_nil_l]. }
  destruct pool as [|x [|y p]]; [simpl in Hk; lia| |].
  { simpl in *. split; [lia|done]. }
  rewrite draw_S_many. set (pool := x :: y :: p) in *.
  destruct (np.random.next s) as [r s']. cbv zeta.
  assert (r mod length pool < length pool) as Hj
    by (apply Nat.mod_upper_bound; simpl; lia).
  destruct (lookup_lt_is_Some_2 pool _ Hj) as [z Hz]. rewrite Hz.
  assert (k ≤ length (delete (r mod length pool) pool)) as Hk'.
  { rewrite length_delete by eauto. lia. }
  destruct (IH _ s' Hk') as [Hlen Hsub].
  destruct (np.random.draw k _ s') as [xs s'']. simpl in *. split; [lia|].
  rewrite (delete_Permutation pool _ z Hz). by apply submseteq_skip.
Qed.

(** A permutation rearranges the whole population. *)
Lemma permutation_Permutation a s : (np.random.permutation a s).1 ≡ₚ a.
Proof.
  destruct (draw_spec (length a) a s) as [Hlen Hsub]; [done|].
  apply submseteq_length_Permutation; [done|]. unfold np.random.permutation.
  lia.
Qed.

(** The generator produces the arrangements of the population, and
    each of them from some state. *)
Lemma draw_arrangement k pool s :
  k ≤ length pool → arrangement (np.random.draw k pool s).1 pool.
Proof.
  revert pool s. induction k as [|k IH]; intros pool s Hk.
  { constructor. }
  destruct pool as [|x [|y p]]; [simpl in Hk; lia| |].
  { simpl. by apply (arrangement_cons 0 x [] [x]); [|constructor]. }
  rewrite draw_S_many. set (pool := x :: y :: p) in *.
  destruct (np.random.next s) as [r s']. cbv zeta.
  assert (r mod length pool < length pool) as Hj
    by (apply Nat.mod_upper_bound; simpl; lia).
  destruct (lookup_lt_is_Some_2 pool _ Hj) as [z Hz]. rewrite Hz.
  assert (k ≤ length (delete (r mod length pool) pool)) as Hk'.
  { rewrite length_delete by eauto. lia. }
  specialize (IH _ s' Hk').
  destruct (np.random.draw k _ s') as [xs s'']. simpl in *.
  by econstructor.
Qed.

Lemma arrangement_length xs pool : arrangement xs pool → length xs ≤ length pool.
Proof.
  induction 1 as [|j x xs pool Hx _ IH]; simpl; [lia|].
  rewrite length_delete in IH by eauto.
  apply lookup_lt_Some in Hx. lia.
Qed.

Lemma arrangement_take k xs pool :
  arrangement xs pool → arrangement (take k xs) pool.
Proof.
  intros Harr. revert k.
  induction Harr as [|j x xs pool Hx _ IH]; intros [|k]; simpl;
    try constructor.
  by econstructor.
Qed.

Lemma arrangement_full pool : arrangement pool pool.
Proof.
  induction pool as [|x pool IH]; [constructor|].
  by apply (arrangement_cons 0 x pool (x :: pool)).
Qed.

Lemma arrangement_extend xs pool :
  arrangement xs pool →
  ∃ ys, arrangement (xs ++ ys) pool ∧ length (xs ++ ys) = length pool.
Proof.
  induction 1 as [pool|j x xs pool Hx _ (ys & Harr & Hlen)].
  - exists pool. split; [apply arrangement_full|done].
  - exists ys. split; [by econstructor|]. simpl. rewrite Hlen.
    rewrite length_delete by eauto. apply lookup_lt_Some in Hx. lia.
Qed.

Lemma arrangement_draw xs pool s' :
  arrangement xs pool → ∃ s, np.random.draw (length xs) pool s = (xs, s').
Proof.
  induction 1 as [|j x xs pool Hx Harr [s IH]].
  - by exists s'.
  - destruct pool as [|x0 [|y p]]; [done| |].
    + destruct j as [|j]; [|done]. injection Hx as ->.
      apply arrangement_length in Harr. destruct xs; [|simpl in Harr; lia].
      by exists s'.
    + exists (j :: s). cbn [length]. rewrite draw_S_many. cbn [np.random.next].
      cbv zeta. rewrite Nat.mod_small by (by eapply lookup_lt_Some).
      by rewrite Hx, IH.
Qed.

Lemma choice_Ok a size s xs s' :
  np.random.choice a size s = (Ok xs, s') →
  (0 ≤ size)%Z ∧ Z.of_nat (length xs) = size ∧ xs ⊆+ a.
Proof.
  unfold np.random.choice.
  destruct (bool_decide (length a = 0) && negb (size =? 0)%Z); [done|].
  destruct ((0 <=? size) && (size <=? Z.of_nat (length a)))%Z eqn:Hin.
  - apply andb_true_iff in Hin as [H0%Z.leb_le Hle%Z.leb_le].
    pose proof (permutation_Permutation a s) as Hperm.
    destruct (np.random.permutation a s) as [idx s'']. intros [= <- <-].
    simpl in Hperm. split_and!; [done| |].
    + rewrite length_take_le; [lia|]. rewrite Hperm. lia.
    + rewrite <- Hperm. apply sublist_submseteq, sublist_take.
  - by destruct (_ || _).
Qed.

(** A refused draw raises [ValueError], or [OverflowError] for a size
    that is no C integer, and leaves the generator as it was. *)
Lemma choice_Raise a size s e s' :
  np.random.choice a size s = (Raise e, s') →
  s' = s
  ∧ (e = ValueError
     ∨ (e = OverflowError ∧ (size < - 2 ^ 63 ∨ 2 ^ 64 ≤ size)%Z)).
Proof.
  unfold np.random.choice.
  destruct (bool_decide (length a = 0) && negb (size =? 0)%Z).
  { intros [= <- <-]. by split; [|left]. }
  destruct ((0 <=? size) && (size <=? Z.of_nat (length a)))%Z.
  { by destruct (np.random.permutation a s). }
  destruct ((size <? - 2 ^ 63) || (2 ^ 64 <=? size))%Z eqn:Hov.
  - intros [= <- <-]. split; [done|]. right. split; [done|].
    apply orb_true_iff in Hov as [?%Z.ltb_lt|?%Z.leb_le]; lia.
  - intros [= <- <-]. by split; [|left].
Qed.

(** A negative size and a size above the population are refused. *)
Lemma choice_refused a size s :
  (size < 0 ∨ Z.of_nat (length a) < size)%Z →
  ∃ e, np.random.choice a size s = (Raise e, s)
       ∧ (e = ValueError ∨ e = OverflowError)
       ∧ ((- 2 ^ 63 ≤ size < 2 ^ 64)%Z → e = ValueError).
Proof.
  intros Hout. unfold np.random.choice.
  destruct (bool_decide (length a = 0) && negb (size =? 0)%Z).
  { exists ValueError. by split_and!; [|left|]. }
  destruct ((0 <=? size) && (size <=? Z.of_nat (length a)))%Z eqn:Hin.
  { apply andb_true_iff in Hin as [H0%Z.leb_le Hle%Z.leb_le]. lia. }
  destruct ((size <? - 2 ^ 63) || (2 ^ 64 <=? size))%Z eqn:Hov.
  - exists OverflowError. split_and!; [done|by right|].
    apply orb_true_iff in Hov as [?%Z.ltb_lt|?%Z.leb_le]; lia.
  - exists ValueError. by split_and!; [|left|].
Qed.

(** Any other size is served. *)
Lemma choice_enough a size s :
  (0 ≤ size ≤ Z.of_nat (length a))%Z →
  ∃ xs s', np.random.choice a size s = (Ok xs, s').
Proof.
  intros Hsz. unfold np.random.choice.
  destruct (bool_decide (length a = 0) && negb (size =? 0)%Z) eqn:He.
  { apply andb_true_iff in He as [He%bool_decide_eq_true Hz%negb_true_iff].
    apply Z.eqb_neq in Hz. lia. }
  destruct ((0 <=? size) && (size <=? Z.of_nat (length a)))%Z eqn:Hin.
  - destruct (np.random.permutation a s) as [idx s']. by eexists _, _.
  - apply andb_false_iff in Hin as [?%Z.leb_gt|?%Z.leb_gt]; lia.
Qed.

Lemma choice_arrangement a size s xs s' :
  np.random.choice a size s = (Ok xs, s') → arrangement xs a.
Proof.
  unfold np.random.choice.
  destruct (bool_decide (length a = 0) && negb (size =? 0)%Z); [done|].
  destruct ((0 <=? size) && (size <=? Z.of_nat (length a)))%Z.
  - pose proof (draw_arrangement (length a) a s (le_n _)) as Harr.
    unfold np.random.permutation.
    destruct (np.random.draw _ a s) as [idx s'']. intros [= <- <-].
    by apply arrangement_take.
  - by destruct (_ || _).
Qed.

Lemma arrangement_choice a xs s' :
  arrangement xs a →
  ∃ s, np.random.choice a (Z.of_nat (length xs)) s = (Ok xs, s').
Proof.
  intros Harr. pose proof (arrangement_length _ _ Harr) as Hlen.
  destruct (arrangement_extend xs a Harr) as (ys & Hfull & Hlen').
  destruct (arrangement_draw (xs ++ ys) a s' Hfull) as [s Hs]. exists s.
  unfold np.random.choice.
  destruct (bool_decide (length a = 0) && negb (_ =? 0)%Z) eqn:He.
  { apply andb_true_iff in He as [He%bool_decide_eq_true Hz%negb_true_iff].
    apply Z.eqb_neq in Hz. lia. }
  destruct ((0 <=? _) && (_ <=? Z.of_nat (length a)))%Z eqn:Hin.
  - unfold np.random.permutation. rewrite <- Hlen', Hs, Nat2Z.id.
    by rewrite take_app_length.
  - apply andb_false_iff in Hin as [?%Z.leb_gt|?%Z.leb_gt]; lia.
Qed.

Lemma full_Ok (n : Z) (x : A) xs :
  np.full n x = Ok xs ↔ (0 ≤ n)%Z ∧ xs = replicate (Z.to_nat n) x.
Proof.
  unfold np.full. destruct (n <? 0)%Z eqn:Hlt.
  - split; [done | lia].
  - split; [intros [= <-]; split; [lia|done] | by intros [_ ->]].
Qed.
End choice_facts.

(** ** TaskGenerator: construction and sampling *)

Section TaskGenerator_facts.
Context {T L : Type} `{EqDecision L} `{np.Scalar L}.
Implicit Types (w : TaskGenerator.world T L) (self : TaskGenerator.t T L).
Implicit Types (md : MetaDataset.t T L) (cs classes : list L) (shots : Z).

Lemma frame_refl w : frame w w.
Proof. by split. Qed.

Lemma frame_trans w1 w2 w3 : frame w1 w2 → frame w2 w3 → frame w1 w3.
Proof.
  intros [] []. split; congruence.
Qed.

Lemma frame_np_random w s : frame w (TaskGenerator.World (TaskGenerator.self w) s).
Proof. by split. Qed.

Lemma getitem_run c w :
  TaskGenerator.labels_to_indices_getitem c w = (Ok (pool w c), touch c w).
Proof.
  unfold touch, TaskGenerator.labels_to_indices_getitem, pool, index.
  rewrite <- defaultdict_getitem_fst.
  by destruct (defaultdict_getitem _ c).
Qed.

Lemma touch_np_random c w :
  TaskGenerator.np_random (touch c w) = TaskGenerator.np_random w.
Proof.
  unfold touch, TaskGenerator.labels_to_indices_getitem.
  by destruct (defaultdict_getitem _ c).
Qed.

Lemma touch_index c w :
  index (touch c w) = (defaultdict_getitem (index w) c).2.
Proof.
  unfold touch, TaskGenerator.labels_to_indices_getitem, index.
  by destruct (defaultdict_getitem _ c).
Qed.

Lemma touch_frame c w : frame w (touch c w).
Proof.
  split; try (unfold touch, TaskGenerator.labels_to_indices_getitem;
              by destruct (defaultdict_getitem _ c)).
  intros c'. unfold pool. rewrite touch_index.
  apply peek_defaultdict_getitem.
Qed.

(** Reading the positions of a class that the index knows writes nothing. *)
Lemma touch_present c w : c ∈ dict_keys (index w) → touch c w = w.
Proof.
  intros Hin. pose proof (defaultdict_getitem_present _ _ Hin) as Hd.
  unfold touch, TaskGenerator.labels_to_indices_getitem.
  unfold index in Hd.
  destruct (defaultdict_getitem _ c) as [v d']. simpl in *. subst d'.
  by destruct w as [[[ds d lb] wy cl] s].
Qed.

(** Reading those of a class it does not know files an empty list. *)
Lemma touch_absent c w :
  c ∉ dict_keys (index w) → index (touch c w) = index w ++ [(c, [])].
Proof. intros Hnin. rewrite touch_index. by apply defaultdict_getitem_absent. Qed.

(** One turn of the loop, step by step. *)
Lemma class_step_run label_encoder shots di dl c w :
  class_step label_encoder shots (di, dl) c w =
  match np.random.choice (pool w c) shots (TaskGenerator.np_random w) with
  | (Raise e, s') =>
      (Raise e, TaskGenerator.World (TaskGenerator.self (touch c w)) s')
  | (Ok chosen, s') =>
      let w' := TaskGenerator.World (TaskGenerator.self (touch c w)) s' in
      match dict_get c (LabelEncoder.class_to_idx label_encoder) with
      | None => (Raise KeyError, w')
      | Some idx =>
          (Ok (di ++ chosen, dl ++ replicate (Z.to_nat shots) idx), w')
      end
  end.
Proof.
  unfold class_step. rewrite bind_run, getitem_run, bind_run.
  unfold TaskGenerator.np_random_choice. rewrite touch_np_random.
  destruct (np.random.choice _ shots _) as [[chosen|e] s'] eqn:Hc; [|done].
  apply choice_Ok in Hc as (Hshots & _ & _).
  rewrite bind_run. unfold lift, dict_getitem.
  destruct (dict_get c _) as [idx|]; [|done].
  rewrite bind_run. unfold np.full.
  destruct (shots <? 0)%Z eqn:Hlt; [lia|done].
Qed.

(** The loop over the classes of an episode: what it returns, what it
    raises, and what it leaves as it found it. *)
Lemma loop_spec label_encoder shots cs :
  ∀ di dl w r w',
  for_in (class_step label_encoder shots) cs (di, dl) w = (r, w') →
  frame w w'
  ∧ ((∀ c, c ∈ cs → c ∈ dict_keys (index w)) →
     TaskGenerator.self w' = TaskGenerator.self w)
  ∧ match r with
    | Ok (di', dl') =>
        ∃ chunks idxs,
          Forall2 (λ c chunk,
                     Z.of_nat (length chunk) = shots ∧ chunk ⊆+ pool w c)
                  cs chunks
          ∧ Forall2 (λ c j,
                       dict_get c (LabelEncoder.class_to_idx label_encoder)
                       = Some j)
                    cs idxs
          ∧ di' = di ++ concat chunks
          ∧ dl' = dl ++ concat (replicate (Z.to_nat shots) <$> idxs)
    | Raise e =>
        e = ValueError
        ∨ (e = OverflowError ∧ (shots < - 2 ^ 63 ∨ 2 ^ 64 ≤ shots)%Z)
        ∨ (e = KeyError
           ∧ ∃ c, c ∈ cs
               ∧ dict_get c (LabelEncoder.class_to_idx label_encoder) = None)
    end.
Proof.
  induction cs as [|c cs IH]; intros di dl w r w' Hrun.
  - injection Hrun as <- <-. split_and!; [apply frame_refl|done|].
    exists [], []. split_and!; try constructor; by rewrite app_nil_r.
  - rewrite for_in_cons_run, class_step_run in Hrun.
    set (w1 s := TaskGenerator.World (TaskGenerator.self (touch c w)) s) in *.
    assert (∀ s, frame w (w1 s)) as Hw1.
    { intros s. eapply frame_trans; [apply touch_frame|].
      apply (frame_np_random (touch c w)). }
    assert (∀ s, (∀ c', c' ∈ c :: cs → c' ∈ dict_keys (index w)) →
                 TaskGenerator.self (w1 s) = TaskGenerator.self w
                 ∧ index (w1 s) = index w) as Hsame.
    { intros s Hall. unfold w1, index. simpl.
      rewrite touch_present; [done|]. apply Hall, list_elem_of_here. }
    destruct (np.random.choice (pool w c) shots _)
      as [[chosen|e] s'] eqn:Hc; simpl in Hrun.
    + apply choice_Ok in Hc as (Hshots & Hlen & Hsub).
      destruct (dict_get c _) as [idx|] eqn:Hidx.
      * apply IH in Hrun as (Hfr & Hself & Hr).
        split_and!.
        -- by eapply frame_trans.
        -- intros Hall. destruct (Hsame s' Hall) as [Hs Hi].
           rewrite Hself; [exact Hs|]. intros c' Hc'.
           change (c' ∈ dict_keys (index (w1 s'))). rewrite Hi.
           by apply Hall, list_elem_of_further.
        -- destruct r as [[di' dl']|e]; [|].
           ++ destruct Hr as (chunks & idxs & Hch & Hix & -> & ->).
              exists (chosen :: chunks), (idx :: idxs). split_and!.
              ** constructor; [done|].
                 eapply Forall2_impl; [exact Hch|]. simpl.
                 intros c' chunk [? ?]. split; [done|].
                 by rewrite <- (frame_pool _ _ (Hw1 s')).
              ** by constructor.
              ** simpl. by rewrite (assoc_L (++)).
              ** simpl. by rewrite (assoc_L (++)).
           ++ destruct Hr as [->|[Hov|[-> (c' & Hc' & Hnone)]]];
                [by left|by right; left|].
              right; right. split; [done|]. exists c'.
              split; [by apply list_elem_of_further | done].
      * injection Hrun as <- <-. split_and!; [apply Hw1| |].
        -- intros Hall. by destruct (Hsame s' Hall).
        -- right; right. split; [done|]. exists c.
           split; [apply list_elem_of_here|done].
    + apply choice_Raise in Hc as [-> He]. injection Hrun as <- <-.
      split_and!; [apply Hw1| |].
      * intros Hall. by destruct (Hsame (TaskGenerator.np_random w) Hall).
      * destruct He as [->|?]; [by left|by right; left].
Qed.

Lemma fetch_run md idx :
  fetch md idx =
  match MetaDataset.dataset md !! idx with
  | Some item => Ok item.1
  | None => Raise IndexError
  end.
Proof.
  unfold fetch, MetaDataset.__getitem__, list_getitem.
  by destruct (MetaDataset.dataset md !! idx).
Qed.

Lemma mapM_fetch_Ok md (data_indices : list nat) (data : list T) :
  mapM (fetch md) data_indices = Ok data
  ↔ Forall2 (λ i x, ∃ l, MetaDataset.dataset md !! i = Some (x, l))
            data_indices data.
Proof.
  revert data. induction data_indices as [|i rest IH]; intros data.
  - split; [intros [= <-]; constructor | by intros ->%Forall2_nil_inv_l].
  - rewrite mapM_cons_run, fetch_run.
    destruct (MetaDataset.dataset md !! i) as [[x l]|] eqn:Hi; simpl.
    + destruct (mapM (fetch md) rest) as [xs|e] eqn:Hm.
      * split.
        -- intros [= <-]. constructor; [by exists l | by apply IH].
        -- intros (x' & xs' & [l' Hl'] & Hxs & ->)%Forall2_cons_inv_l.
           apply IH in Hxs. by simplify_eq.
      * split; [done|].
        intros (x' & xs' & _ & Hxs & ->)%Forall2_cons_inv_l.
        by apply IH in Hxs.
    + split; [done|].
      intros (x' & xs' & [l' Hl'] & _ & ->)%Forall2_cons_inv_l. congruence.
Qed.

(** [_check_classes] accepts exactly the class lists drawn from the
    labels recorded at construction. *)
Lemma check_classes_Ok self classes :
  (∀ c, c ∈ classes → c ∈ MetaDataset.labels (TaskGenerator.dataset self)) →
  TaskGenerator._check_classes self classes = Ok ().
Proof.
  intros Hsub. unfold TaskGenerator._check_classes.
  rewrite bool_decide_eq_true_2; [done|].
  rewrite (elem_of_nil_inv (list_difference _ _)); [done|].
  intros c [Hc Hn]%list_elem_of_difference. apply Hn.
  rewrite elem_of_remove_dups in Hc. rewrite elem_of_remove_dups. auto.
Qed.

Lemma check_classes_Raise self classes c :
  c ∈ classes → c ∉ MetaDataset.labels (TaskGenerator.dataset self) →
  TaskGenerator._check_classes self classes = Raise InvalidClassError.
Proof.
  intros Hc Hn. unfold TaskGenerator._check_classes.
  rewrite bool_decide_eq_false_2; [done|].
  intros Hlen%nil_length_inv.
  assert (c ∈ list_difference (remove_dups classes)
                (remove_dups (MetaDataset.labels (TaskGenerator.dataset self))))
    as Hin.
  { apply list_elem_of_difference. by rewrite !elem_of_remove_dups. }
  rewrite Hlen in Hin. by apply elem_of_nil in Hin.
Qed.

Lemma check_classes_cases self classes :
  (TaskGenerator._check_classes self classes = Ok ()
   ∧ ∀ c, c ∈ classes → c ∈ MetaDataset.labels (TaskGenerator.dataset self))
  ∨ (TaskGenerator._check_classes self classes = Raise InvalidClassError
     ∧ ∃ c, c ∈ classes
            ∧ c ∉ MetaDataset.labels (TaskGenerator.dataset self)).
Proof.
  destruct (decide (Forall (λ c, c ∈ MetaDataset.labels
                                      (TaskGenerator.dataset self)) classes))
    as [Hall|Hex].
  - rewrite Forall_forall in Hall. left. split; [|done].
    by apply check_classes_Ok.
  - apply not_Forall_Exists in Hex; [|apply _].
    apply Exists_exists in Hex as (c & Hc & Hn). right.
    split; [by eapply check_classes_Raise | by exists c].
Qed.

Lemma sample_split (classes0 : option (list L)) shots w :
  TaskGenerator.sample classes0 shots w =
  match classes_to_sample classes0 w with
  | (Ok cs, w1) => TaskGenerator.sample (Some cs) shots w1
  | (Raise e, w1) => (Raise e, w1)
  end.
Proof. reflexivity. Qed.

Lemma classes_to_sample_None w :
  classes_to_sample None w =
  match TaskGenerator._check_classes (TaskGenerator.self w)
          (TaskGenerator.classes (TaskGenerator.self w)) with
  | Ok _ =>
      let '(r, s') :=
        np.random.choice (np.array (TaskGenerator.classes (TaskGenerator.self w)))
          (TaskGenerator.ways (TaskGenerator.self w))
          (TaskGenerator.np_random w) in
      (r, TaskGenerator.World (TaskGenerator.self w) s')
  | Raise e => (Raise e, w)
  end.
Proof.
  unfold classes_to_sample. rewrite bind_run. simpl. rewrite bind_run.
  unfold lift. by destruct (TaskGenerator._check_classes _ _).
Qed.

(** The classes of an episode: the override as it is, or [ways] of the
    configured classes as numpy converts them, once the configured
    classes have passed the check. *)
Lemma classes_to_sample_Ok (classes0 : option (list L)) w cs w1 :
  classes_to_sample classes0 w = (Ok cs, w1) →
  TaskGenerator.self w1 = TaskGenerator.self w
  ∧ match classes0 with
    | Some classes => cs = classes ∧ w1 = w
    | None =>
        cs ⊆+ np.array (TaskGenerator.classes (TaskGenerator.self w))
        ∧ Z.of_nat (length cs) = TaskGenerator.ways (TaskGenerator.self w)
        ∧ ∀ c, c ∈ TaskGenerator.classes (TaskGenerator.self w) →
               c ∈ MetaDataset.labels
                     (TaskGenerator.dataset (TaskGenerator.self w))
    end.
Proof.
  destruct classes0 as [classes|].
  - by intros [= <- <-].
  - rewrite classes_to_sample_None.
    destruct (check_classes_cases (TaskGenerator.self w)
                (TaskGenerator.classes (TaskGenerator.self w)))
      as [[-> Hsub]|[-> _]]; [|done].
    destruct (np.random.choice _ _ _) as [r s'] eqn:Hc.
    intros [= -> <-]. apply choice_Ok in Hc as (_ & Hlen & Hsubm). done.
Qed.

(** [sample] once the classes of the episode are known. *)
Lemma sample_Some_run cs shots w :
  TaskGenerator.sample (Some cs) shots w =
  match LabelEncoder.__init__ cs with
  | Raise e => (Raise e, w)
  | Ok label_encoder =>
      match for_in (class_step label_encoder shots) cs ([], []) w with
      | (Raise e, w') => (Raise e, w')
      | (Ok (data_indices, data_labels), w') =>
          match mapM (fetch (TaskGenerator.dataset (TaskGenerator.self w')))
                  data_indices with
          | Raise e => (Raise e, w')
          | Ok data => (Ok (SampleDataset.mk data data_labels cs), w')
          end
      end
  end.
Proof.
  unfold TaskGenerator.sample. rewrite bind_run.
  cbn beta iota delta [mret stateful_ret]. rewrite bind_run. unfold lift at 1.
  destruct (LabelEncoder.__init__ cs) as [label_encoder|e]; [|done].
  rewrite bind_run.
  change (@for_in (stateful _) _ _ _ _ _ cs ([], []) w)
    with (for_in (class_step label_encoder shots) cs ([], []) w).
  destruct (for_in (class_step label_encoder shots) cs ([], []) w)
    as [[[data_indices data_labels]|e] w']; [|done].
  rewrite bind_run. cbn beta iota delta [TaskGenerator.get_self].
  rewrite bind_run. unfold lift.
  change (@mapM result _ _ _ _ _ data_indices)
    with (mapM (fetch (TaskGenerator.dataset (TaskGenerator.self w')))
            data_indices).
  by destruct (mapM _ data_indices).
Qed.

Lemma length_remapped n shots :
  length (remapped n shots) = n * Z.to_nat shots.
Proof.
  unfold remapped. generalize 0. induction n as [|n IH]; intros j; simpl.
  - done.
  - by rewrite length_app, length_replicate, IH.
Qed.

Lemma length_chunks {A B : Type} (P : A → list B → Prop) (k : nat)
    (l : list A) (chunks : list (list B)) :
  Forall2 (λ x chunk, length chunk = k ∧ P x chunk) l chunks →
  length (concat chunks) = length l * k.
Proof.
  induction 1 as [|x chunk l chunks [Hlen _] _ IH]; simpl; [done|].
  by rewrite length_app, Hlen, IH.
Qed.

(** The encoder of a class list without repeats numbers the classes by
    position. *)
Lemma dense_indices cs idxs :
  NoDup cs →
  Forall2 (λ c j, dict_get c (LabelEncoder.class_to_idx (encoded cs)) = Some j)
          cs idxs →
  idxs = seq 0 (length cs).
Proof.
  intros Hnd Hix. apply list_eq. intros i.
  destruct (cs !! i) as [c|] eqn:Hc.
  - destruct (Forall2_lookup_l _ _ _ _ _ Hix Hc) as (j & Hj & Hget).
    rewrite (encoded_class_to_idx cs i c Hnd Hc) in Hget.
    injection Hget as <-. rewrite Hj. symmetry. apply lookup_seq_lt.
    by eapply lookup_lt_Some.
  - apply lookup_ge_None in Hc. rewrite !lookup_ge_None_2; [done| |].
    + by rewrite length_seq.
    + by rewrite <- (Forall2_length _ _ _ Hix).
Qed.

Lemma encoded_knows cs c :
  NoDup cs → c ∈ cs →
  is_Some (dict_get c (LabelEncoder.class_to_idx (encoded cs))).
Proof.
  intros Hnd (i & Hi)%list_elem_of_lookup_1.
  exists i. by apply encoded_class_to_idx.
Qed.

(** A successful call on a given class list. *)
Lemma sample_Some_Ok cs shots w ep w' :
  TaskGenerator.sample (Some cs) shots w = (Ok ep, w') →
  NoDup cs
  ∧ frame w w'
  ∧ SampleDataset.sampled_classes ep = cs
  ∧ SampleDataset.label ep = remapped (length cs) shots
  ∧ ∃ chunks,
      Forall2 (λ c chunk,
                 Z.of_nat (length chunk) = shots ∧ chunk ⊆+ pool w c)
              cs chunks
      ∧ Forall2 (λ i x, ∃ l,
                   MetaDataset.dataset
                     (TaskGenerator.dataset (TaskGenerator.self w)) !! i
                   = Some (x, l))
                (concat chunks) (SampleDataset.data ep).
Proof.
  rewrite sample_Some_run.
  destruct (LabelEncoder.__init__ cs) as [label_encoder|e] eqn:Hinit; [|done].
  apply LabelEncoder_init_Ok in Hinit as [Hnd ->].
  destruct (for_in (class_step _ shots) cs ([], []) w) as [[[di dl]|e] w1] eqn:Hloop; [|done].
  apply loop_spec in Hloop
    as (Hfr & _ & chunks & idxs & Hch & Hix & Hdi & Hdl).
  simpl in Hdi, Hdl. subst di dl.
  apply dense_indices in Hix as ->; [|done].
  destruct (mapM _ (concat chunks)) as [data|e] eqn:Hm; [|done].
  intros [= <- <-]. simpl. split_and!; try done.
  exists chunks. split; [done|]. apply mapM_fetch_Ok in Hm.
  by rewrite (frame_dataset _ _ Hfr) in Hm.
Qed.

(** A call on a class list one class of which lacks positions. *)
Lemma sample_Some_short cs shots w c :
  c ∈ cs → (Z.of_nat (length (pool w c)) < shots)%Z →
  ∃ e w', TaskGenerator.sample (Some cs) shots w = (Raise e, w')
          ∧ (NoDup cs →
             (e = ValueError ∨ e = OverflowError)
             ∧ ((shots < 2 ^ 64)%Z → e = ValueError)).
Proof.
  intros Hc Hshort. rewrite sample_Some_run.
  destruct (decide (NoDup cs)) as [Hnd|Hdup].
  - rewrite LabelEncoder_init_NoDup by done.
    destruct (for_in (class_step _ shots) cs ([], []) w) as [[[di dl]|e] w1] eqn:Hloop.
    + exfalso. apply loop_spec in Hloop as (_ & _ & chunks & _ & Hch & _).
      apply list_elem_of_lookup_1 in Hc as [i Hi].
      destruct (Forall2_lookup_l _ _ _ _ _ Hch Hi)
        as (chunk & _ & Hlen & Hsub%submseteq_length).
      lia.
    + exists e, w1. split; [done|]. intros _.
      apply loop_spec in Hloop
        as (_ & _ & [->|[[-> Hov]|[_ (c' & Hc' & Hn)]]]).
      * by split; [left|].
      * split; [by right|]. lia.
      * destruct (encoded_knows cs c' Hnd Hc') as [j Hj]. congruence.
  - rewrite LabelEncoder_init_dup by done. by exists DuplicateLabelError, w.
Qed.

(** Whatever the outcome, a call writes to nothing but the index and the
    generator, and to the index only for a class that it does not hold. *)
Lemma sample_Some_frame cs shots w r w' :
  TaskGenerator.sample (Some cs) shots w = (r, w') →
  frame w w'
  ∧ ((∀ c, c ∈ cs → c ∈ dict_keys (index w)) →
     TaskGenerator.self w' = TaskGenerator.self w).
Proof.
  rewrite sample_Some_run.
  destruct (LabelEncoder.__init__ cs) as [label_encoder|e].
  - destruct (for_in (class_step _ shots) cs ([], []) w) as [r1 w1] eqn:Hloop.
    destruct r1 as [[di dl]|e].
    + apply loop_spec in Hloop as (Hfr & Hself & _).
      destruct (mapM _ di); by intros [= <- <-].
    + apply loop_spec in Hloop as (Hfr & Hself & _). by intros [= <- <-].
  - intros [= <- <-]. split; [apply frame_refl|done].
Qed.

(** A successful call, with or without an override. *)
Lemma sample_Ok (classes0 : option (list L)) shots w ep w' :
  TaskGenerator.sample classes0 shots w = (Ok ep, w') →
  let cs := SampleDataset.sampled_classes ep in
  NoDup cs
  ∧ frame w w'
  ∧ match classes0 with
    | Some classes => cs = classes
    | None =>
        cs ⊆+ np.array (TaskGenerator.classes (TaskGenerator.self w))
        ∧ Z.of_nat (length cs) = TaskGenerator.ways (TaskGenerator.self w)
    end
  ∧ SampleDataset.label ep = remapped (length cs) shots
  ∧ ∃ chunks,
      Forall2 (λ c chunk,
                 Z.of_nat (length chunk) = shots ∧ chunk ⊆+ pool w c)
              cs chunks
      ∧ Forall2 (λ i x, ∃ l,
                   MetaDataset.dataset
                     (TaskGenerator.dataset (TaskGenerator.self w)) !! i
                   = Some (x, l))
                (concat chunks) (SampleDataset.data ep).
Proof.
  rewrite sample_split.
  destruct (classes_to_sample classes0 w) as [[cs|e] w1] eqn:Hcs; [|done].
  apply classes_to_sample_Ok in Hcs as [Hself Hcs].
  intros (Hnd & Hfr & Hsc & Hlab & chunks & Hch & Hdata)%sample_Some_Ok.
  assert (frame w w1) as Hfr1.
  { split; unfold pool, index; by rewrite Hself. }
  simpl. rewrite Hsc. split_and!; try done.
  - by eapply frame_trans.
  - destruct classes0; [by destruct Hcs | by destruct Hcs as (? & ? & _)].
  - exists chunks. split.
    + eapply Forall2_impl; [exact Hch|]. simpl. intros c chunk [? ?].
      by rewrite <- (frame_pool _ _ Hfr1).
    + by rewrite <- (frame_dataset _ _ Hfr1).
Qed.

Lemma episode_length shots (cs : list L) (chunks : list (list nat))
    (P : L → list nat → Prop) :
  Forall2 (λ c chunk, Z.of_nat (length chunk) = shots ∧ P c chunk) cs chunks →
  Z.of_nat (length (concat chunks)) = (Z.of_nat (length cs) * shots)%Z.
Proof.
  induction 1 as [|c chunk cs chunks [Hlen _] _ IH]; simpl; [lia|].
  rewrite length_app. lia.
Qed.

(** C1, as amended. Every episode that [sample] returns has as many
    items as it has classes, times [shots]; it has [ways] classes when
    the classes are drawn, and the classes of the override list, however
    many, when one is passed. *)
Theorem C1_episode_length (classes0 : option (list L)) shots w ep w' :
  TaskGenerator.sample classes0 shots w = (Ok ep, w') →
  Z.of_nat (SampleDataset.__len__ ep)
  = (Z.of_nat (length (SampleDataset.sampled_classes ep)) * shots)%Z
  ∧ match classes0 with
    | None =>
        Z.of_nat (length (SampleDataset.sampled_classes ep))
        = TaskGenerator.ways (TaskGenerator.self w)
    | Some classes => SampleDataset.sampled_classes ep = classes
    end.
Proof.
  intros (_ & _ & Hcs & _ & chunks & Hch & Hdata)%sample_Ok.
  split.
  - unfold SampleDataset.__len__.
    rewrite <- (Forall2_length _ _ _ Hdata).
    exact (episode_length shots _ chunks (λ c chunk, chunk ⊆+ pool w c) Hch).
  - destruct classes0; [done | by destruct Hcs].
Qed.

(** C2, as amended. Every episode that [sample] returns carries as
    labels the dense indices [0, ..., n-1] in increasing order, each
    [shots] times in a row, where [n] is the number of classes of the
    episode, which are pairwise distinct: [ways] classes when they are
    drawn, the override list when one is passed. *)
Theorem C2_remapped_labels (classes0 : option (list L)) shots w ep w' :
  TaskGenerator.sample classes0 shots w = (Ok ep, w') →
  SampleDataset.label ep
  = concat (replicate (Z.to_nat shots)
              <$> seq 0 (length (SampleDataset.sampled_classes ep)))
  ∧ NoDup (SampleDataset.sampled_classes ep)
  ∧ match classes0 with
    | None =>
        Z.of_nat (length (SampleDataset.sampled_classes ep))
        = TaskGenerator.ways (TaskGenerator.self w)
    | Some classes => SampleDataset.sampled_classes ep = classes
    end.
Proof.
  intros (Hnd & _ & Hcs & Hlab & _)%sample_Ok.
  split_and!; [done|done|]. destruct classes0; [done | by destruct Hcs].
Qed.

(** C5. In every episode that [sample] returns, the items are fetched,
    class by class in the order of the classes of the episode, from
    [shots] positions that the index holds for that class, so that the
    episode has (number of classes) x [shots] items, labelled by the
    dense index of their class; when the index is the one built at
    construction, the wrapped dataset has the label of the class at each
    of these positions. *)
Theorem C5_items_from_class_positions
    (classes0 : option (list L)) shots w ep w' :
  TaskGenerator.sample classes0 shots w = (Ok ep, w') →
  let ds := MetaDataset.dataset (TaskGenerator.dataset (TaskGenerator.self w)) in
  let cs := SampleDataset.sampled_classes ep in
  ∃ chunks : list (list nat),
    Forall2 (λ c chunk,
               Z.of_nat (length chunk) = shots
               ∧ (∀ i, i ∈ chunk → i ∈ pool w c)
               ∧ (constructed (TaskGenerator.dataset (TaskGenerator.self w)) →
                  ∀ i, i ∈ chunk → ∃ x, ds !! i = Some (x, c)))
            cs chunks
    ∧ Forall2 (λ i x, ∃ l, ds !! i = Some (x, l))
              (concat chunks) (SampleDataset.data ep)
    ∧ SampleDataset.label ep
      = concat (replicate (Z.to_nat shots) <$> seq 0 (length cs))
    ∧ Z.of_nat (length (SampleDataset.data ep))
      = (Z.of_nat (length cs) * shots)%Z.
Proof.
  intros (_ & _ & _ & Hlab & chunks & Hch & Hdata)%sample_Ok. simpl.
  exists chunks. split_and!; [|done|done|].
  - eapply Forall2_impl; [exact Hch|]. simpl. intros c chunk [Hlen Hsub].
    assert (∀ i, i ∈ chunk → i ∈ pool w c) as Hin.
    { intros i Hi. by eapply elem_of_submseteq. }
    split_and!; [done|done|].
    intros [_ Hidx]%constructed_index i Hi%Hin.
    by apply (index_filed _ _ _ Hidx) in Hi as [_ ?].
  - rewrite <- (Forall2_length _ _ _ Hdata).
    exact (episode_length shots _ chunks (λ c chunk, chunk ⊆+ pool w c) Hch).
Qed.

(** Whatever the outcome of a call, it writes to nothing but the index
    and the generator; and it leaves the sampler as it found it when the
    index holds every class of the episode. *)
Lemma sample_frame (classes0 : option (list L)) shots w r w' :
  TaskGenerator.sample classes0 shots w = (r, w') →
  frame w w'
  ∧ ((∀ cs w1, classes_to_sample classes0 w = (Ok cs, w1) →
               ∀ c, c ∈ cs → c ∈ dict_keys (index w)) →
     TaskGenerator.self w' = TaskGenerator.self w).
Proof.
  rewrite sample_split.
  destruct (classes_to_sample classes0 w) as [[cs|e] w1] eqn:Hcs.
  - apply classes_to_sample_Ok in Hcs as [Hself _].
    intros [Hfr Hsame]%sample_Some_frame.
    assert (frame w w1) as Hfr1 by (split; unfold pool, index; by rewrite Hself).
    split; [by eapply frame_trans|]. intros Hall.
    rewrite Hsame, Hself; [done|]. intros c Hc. unfold index.
    rewrite Hself. by eapply Hall.
  - intros [= <- <-]. destruct classes0 as [classes|]; [done|].
    rewrite classes_to_sample_None in Hcs.
    destruct (TaskGenerator._check_classes _ _).
    + destruct (np.random.choice _ _ _) as [r s']. injection Hcs as _ <-.
      split; [apply frame_np_random | done].
    + injection Hcs as _ <-. split; [apply frame_refl | done].
Qed.

(** Without an override, a sampler whose dataset is as constructed and
    whose classes numpy converts to themselves is left untouched: the
    classes that pass the check are keys of the index. *)
Lemma sample_None_pure shots w r w' :
  constructed (TaskGenerator.dataset (TaskGenerator.self w)) →
  np.array (TaskGenerator.classes (TaskGenerator.self w))
  = TaskGenerator.classes (TaskGenerator.self w) →
  TaskGenerator.sample None shots w = (r, w') →
  TaskGenerator.self w' = TaskGenerator.self w.
Proof.
  intros [Hlabels _]%constructed_index Hstable Hrun.
  apply sample_frame in Hrun as [_ Hsame]. apply Hsame.
  intros cs w1 (_ & Hsub & _ & Hvalid)%classes_to_sample_Ok c Hc.
  rewrite Hstable in Hsub.
  unfold index. rewrite <- Hlabels. by eapply Hvalid, elem_of_submseteq.
Qed.

(** C3, as amended. When a class of the configured class list is not
    among the labels of the dataset, construction raises
    [InvalidClassError] provided the list has at least [ways] classes
    (the count is checked first), and a call of [sample] without an
    override raises [InvalidClassError] before it draws anything: the
    sampler and the generator are as before the call. *)
Theorem C3_invalid_configured_class md classes (ways : Z) (c : L) :
  c ∈ classes → c ∉ MetaDataset.labels md →
  ((ways ≤ Z.of_nat (length classes))%Z →
   TaskGenerator.__init__ md (Some classes) ways = Raise InvalidClassError)
  ∧ ∀ shots s,
      let w := TaskGenerator.World (TaskGenerator.mk md ways classes) s in
      TaskGenerator.sample None shots w = (Raise InvalidClassError, w).
Proof.
  intros Hc Hn. split.
  - intros Hways. unfold TaskGenerator.__init__. simpl.
    rewrite bool_decide_eq_true_2 by lia.
    by rewrite (check_classes_Raise _ classes c).
  - intros shots s w. rewrite sample_split, classes_to_sample_None.
    by rewrite (check_classes_Raise _ _ c).
Qed.

(** C6, as amended. When a class of the episode has fewer than [shots]
    positions in the index, [sample] raises and returns no episode.  When
    the classes of the episode are pairwise distinct (a repeated class is
    reported first), the exception is [InsufficientShotsError] for every
    [shots] below 2^64, and otherwise the [OverflowError] that numpy
    raises for a size that is no C integer. *)
Theorem C6_insufficient_shots
    (classes0 : option (list L)) shots w cs w1 (c : L) :
  classes_to_sample classes0 w = (Ok cs, w1) →
  c ∈ cs → (Z.of_nat (length (pool w c)) < shots)%Z →
  ∃ e w', TaskGenerator.sample classes0 shots w = (Raise e, w')
          ∧ (NoDup cs → (shots < 2 ^ 64)%Z → e = InsufficientShotsError)
          ∧ (NoDup cs → e = InsufficientShotsError ∨ e = OverflowError).
Proof.
  intros Hcs Hc Hshort. rewrite sample_split, Hcs.
  apply classes_to_sample_Ok in Hcs as [Hself _].
  destruct (sample_Some_short cs shots w1 c) as (e & w' & Hrun & He);
    [done|unfold pool, index; by rewrite Hself|].
  exists e, w'. split; [done|]. split.
  - intros Hnd Hlt. by apply He.
  - intros Hnd. by apply He.
Qed.

(** C8. Building a [LabelEncoder] from a class list with a repeated
    label raises [DuplicateLabelError], and so does every call of
    [sample] whose classes are that list, whether it is passed as
    override or drawn from the configured classes: the call stops there,
    before it reads the index. *)
Theorem C8_duplicate_label cs :
  ¬ NoDup cs →
  LabelEncoder.__init__ cs = Raise DuplicateLabelError
  ∧ (∀ shots w,
       TaskGenerator.sample (Some cs) shots w = (Raise DuplicateLabelError, w))
  ∧ (∀ shots w w1,
       classes_to_sample None w = (Ok cs, w1) →
       TaskGenerator.sample None shots w = (Raise DuplicateLabelError, w1)).
Proof.
  intros Hdup%LabelEncoder_init_dup. split_and!; [done| |].
  - intros shots w. by rewrite sample_Some_run, Hdup.
  - intros shots w w1 Hcs.
    by rewrite sample_split, Hcs, sample_Some_run, Hdup.
Qed.

(** C10. A call of [sample] with the empty list as override raises
    nothing and returns an episode of length 0, with no data, no label
    and no sampled class; the sampler and the generator are as before
    the call. *)
Theorem C10_empty_override shots w :
  ∃ ep, TaskGenerator.sample (Some []) shots w = (Ok ep, w)
        ∧ SampleDataset.__len__ ep = 0
        ∧ SampleDataset.data ep = []
        ∧ SampleDataset.label ep = []
        ∧ SampleDataset.sampled_classes ep = [].
Proof. by exists (SampleDataset.mk [] [] []). Qed.

(** *** When a call returns an episode *)

Lemma loop_succeeds label_encoder shots cs :
  ∀ di dl w,
  (∀ c, c ∈ cs →
        is_Some (dict_get c (LabelEncoder.class_to_idx label_encoder))) →
  (∀ c, c ∈ cs → (0 ≤ shots ≤ Z.of_nat (length (pool w c)))%Z) →
  ∃ acc w',
    for_in (class_step label_encoder shots) cs (di, dl) w = (Ok acc, w').
Proof.
  induction cs as [|c cs IH]; intros di dl w Hknown Hroom.
  - by exists (di, dl), w.
  - rewrite for_in_cons_run, class_step_run.
    destruct (choice_enough (pool w c) shots (TaskGenerator.np_random w))
      as (chosen & s' & ->); [apply Hroom, list_elem_of_here|].
    destruct (Hknown c) as [idx ->]; [apply list_elem_of_here|]. simpl.
    apply IH.
    + intros c' Hc'. by apply Hknown, list_elem_of_further.
    + intros c' Hc'.
      assert (frame w (TaskGenerator.World
                         (TaskGenerator.self (touch c w)) s')) as Hfr.
      { eapply frame_trans; [apply touch_frame|].
        apply (frame_np_random (touch c w)). }
      rewrite (frame_pool _ _ Hfr). by apply Hroom, list_elem_of_further.
Qed.

Lemma mapM_fetch_succeeds md (data_indices : list nat) :
  (∀ i, i ∈ data_indices → is_Some (MetaDataset.dataset md !! i)) →
  ∃ data, mapM (fetch md) data_indices = Ok data.
Proof.
  induction data_indices as [|i rest IH]; intros Hin.
  - by exists [].
  - rewrite mapM_cons_run, fetch_run.
    destruct (Hin i) as [item ->]; [apply list_elem_of_here|].
    destruct IH as [data ->].
    { intros j Hj. by apply Hin, list_elem_of_further. }
    by eexists.
Qed.

Lemma constructed_in_range w :
  constructed (TaskGenerator.dataset (TaskGenerator.self w)) →
  index_in_range w.
Proof.
  intros [_ Hidx]%constructed_index c i Hi.
  apply (index_filed _ _ _ Hidx) in Hi as [_ [x Hx]]. by eexists.
Qed.

Lemma sample_Some_succeeds cs shots w :
  index_in_range w → NoDup cs →
  (∀ c, c ∈ cs → (0 ≤ shots ≤ Z.of_nat (length (pool w c)))%Z) →
  ∃ ep w', TaskGenerator.sample (Some cs) shots w = (Ok ep, w').
Proof.
  intros Hrange Hnd Hroom. rewrite sample_Some_run.
  rewrite LabelEncoder_init_NoDup by done.
  destruct (loop_succeeds (encoded cs) shots cs [] [] w)
    as ([di dl] & w' & Hloop); [by intros; apply encoded_knows|done|].
  rewrite Hloop.
  apply loop_spec in Hloop as (Hfr & _ & chunks & _ & Hch & _ & -> & _).
  simpl.
  destruct (mapM_fetch_succeeds
              (TaskGenerator.dataset (TaskGenerator.self w')) (concat chunks))
    as [data ->]; [|by eexists _, _].
  intros i (chunk & Hi & Hchunk)%elem_of_concat.
  apply list_elem_of_lookup_1 in Hchunk as [j Hj].
  destruct (Forall2_lookup_r _ _ _ _ _ Hch Hj) as (c & _ & _ & Hsub).
  rewrite (frame_dataset _ _ Hfr). apply (Hrange c).
  by eapply elem_of_submseteq.
Qed.

(** A sampler as constructed, over a dataset as constructed, with
    distinct classes that numpy converts to themselves, a non-negative
    [ways] and no more [shots] than any class has positions, returns an
    episode on every call without override, whatever the state of the
    generator. *)
Lemma sample_None_succeeds shots w :
  let self := TaskGenerator.self w in
  constructed (TaskGenerator.dataset self) →
  TaskGenerator.__init__ (TaskGenerator.dataset self)
    (Some (TaskGenerator.classes self)) (TaskGenerator.ways self) = Ok self →
  np.array (TaskGenerator.classes self) = TaskGenerator.classes self →
  NoDup (TaskGenerator.classes self) →
  (0 ≤ TaskGenerator.ways self)%Z →
  (∀ c, c ∈ TaskGenerator.classes self →
        (0 ≤ shots ≤ Z.of_nat (length (pool w c)))%Z) →
  ∃ ep w', TaskGenerator.sample None shots w = (Ok ep, w').
Proof.
  intros self Hmd Hinit Hstable Hnd Hways Hroom.
  unfold TaskGenerator.__init__ in Hinit. simpl in Hinit.
  case_bool_decide as Hlen; [|done].
  destruct (check_classes_cases
              (TaskGenerator.mk (TaskGenerator.dataset self)
                 (TaskGenerator.ways self) (TaskGenerator.classes self))
              (TaskGenerator.classes self)) as [[Hck Hvalid]|[Hck _]];
    rewrite Hck in Hinit; [|done]. simpl in Hvalid.
  rewrite sample_split, classes_to_sample_None. fold self.
  rewrite (check_classes_Ok self) by done. rewrite Hstable.
  destruct (choice_enough (TaskGenerator.classes self)
              (TaskGenerator.ways self) (TaskGenerator.np_random w))
    as (cs & s' & Hc); [lia|]. rewrite Hc.
  apply choice_Ok in Hc as (_ & _ & Hsub).
  apply sample_Some_succeeds.
  - by apply constructed_in_range.
  - by eapply submseteq_NoDup.
  - intros c Hc. apply (Hroom c). by eapply elem_of_submseteq.
Qed.
End TaskGenerator_facts.

(** ** Worked examples *)

Lemma md10_constructed : MetaDataset.__init__ ds10 = Ok md10.
Proof. reflexivity. Qed.

Lemma tg10_constructed (ways : Z) :
  (ways ≤ 3)%Z → TaskGenerator.__init__ md10 None ways = Ok (tg10 ways).
Proof.
  intros Hways. unfold TaskGenerator.__init__. simpl.
  by rewrite bool_decide_eq_true_2 by lia.
Qed.

Lemma sample_drawn_run :
  TaskGenerator.sample None 2 (world10 2 draws) = (Ok episode_drawn, world10 2 []).
Proof. reflexivity. Qed.

Lemma sample_0_2_run :
  TaskGenerator.sample (Some [0%Z; 2%Z]) 3 (world10 3 draws)
  = (Ok episode_0_2, world10 3 []).
Proof. reflexivity. Qed.

(** *** C1: the length of an episode *)

Lemma C1_episode_length_witness :
  TaskGenerator.sample None 2 (world10 2 draws) = (Ok episode_drawn, world10 2 [])
  ∧ (Z.of_nat (SampleDataset.__len__ episode_drawn)
     = (Z.of_nat (length (SampleDataset.sampled_classes episode_drawn)) * 2)%Z
     ∧ Z.of_nat (length (SampleDataset.sampled_classes episode_drawn))
       = TaskGenerator.ways (TaskGenerator.self (world10 2 draws))).
Proof.
  split; [reflexivity|].
  apply (C1_episode_length None 2 (world10 2 draws) episode_drawn (world10 2 [])).
  reflexivity.
Defined.

(** On a 3-way sampler, [sample(classes=[0,2], shots=3)] returns 6 items,
    not [ways * shots = 9]. *)
Lemma C1_override_length_counterexample :
  TaskGenerator.__init__ md10 None 3 = Ok (tg10 3)
  ∧ TaskGenerator.sample (Some [0%Z; 2%Z]) 3 (world10 3 draws)
    = (Ok episode_0_2, world10 3 [])
  ∧ Z.of_nat (SampleDataset.__len__ episode_0_2) = 6%Z
  ∧ Z.of_nat (SampleDataset.__len__ episode_0_2)
    ≠ (TaskGenerator.ways (tg10 3) * 3)%Z.
Proof. split_and!; [reflexivity | reflexivity | reflexivity | discriminate]. Qed.

(** *** C2: the labels of an episode *)

Lemma C2_remapped_labels_witness :
  TaskGenerator.sample None 2 (world10 2 draws) = (Ok episode_drawn, world10 2 [])
  ∧ (SampleDataset.label episode_drawn
     = concat (replicate (Z.to_nat 2)
                 <$> seq 0 (length (SampleDataset.sampled_classes episode_drawn)))
     ∧ NoDup (SampleDataset.sampled_classes episode_drawn)
     ∧ Z.of_nat (length (SampleDataset.sampled_classes episode_drawn))
       = TaskGenerator.ways (TaskGenerator.self (world10 2 draws))).
Proof.
  split; [reflexivity|].
  apply (C2_remapped_labels None 2 (world10 2 draws) episode_drawn (world10 2 [])).
  reflexivity.
Defined.

(** On a 3-way sampler, the labels of [sample(classes=[0,2], shots=3)]
    are 0,0,0,1,1,1: the dense index 2 of [0..ways-1] does not occur. *)
Lemma C2_override_labels_counterexample :
  TaskGenerator.__init__ md10 None 3 = Ok (tg10 3)
  ∧ TaskGenerator.sample (Some [0%Z; 2%Z]) 3 (world10 3 draws)
    = (Ok episode_0_2, world10 3 [])
  ∧ SampleDataset.label episode_0_2 = [0; 0; 0; 1; 1; 1]
  ∧ SampleDataset.label episode_0_2
    ≠ concat (replicate (Z.to_nat 3)
                <$> seq 0 (Z.to_nat (TaskGenerator.ways (tg10 3)))).
Proof. split_and!; [reflexivity | reflexivity | reflexivity | discriminate]. Qed.

(** *** C3: a class that is not a label of the dataset *)

Lemma C3_invalid_configured_class_witness :
  5%Z ∈ [0%Z; 5%Z]
  ∧ (5%Z ∉ MetaDataset.labels md10)
  ∧ (2 ≤ Z.of_nat (length [0%Z; 5%Z]))%Z
  ∧ TaskGenerator.__init__ md10 (Some [0%Z; 5%Z]) 2 = Raise InvalidClassError
  ∧ ∀ shots s,
      let w := TaskGenerator.World (TaskGenerator.mk md10 2 [0%Z; 5%Z]) s in
      TaskGenerator.sample None shots w = (Raise InvalidClassError, w).
Proof.
  assert (5%Z ∈ [0%Z; 5%Z]) as Hin
    by (apply (bool_decide_unpack _); vm_compute; exact I).
  assert (5%Z ∉ MetaDataset.labels md10) as Hnot
    by (apply (bool_decide_unpack _); vm_compute; exact I).
  assert (2 ≤ Z.of_nat (length [0%Z; 5%Z]))%Z as Hways by (simpl; lia).
  split; [exact Hin|]. split; [exact Hnot|]. split; [exact Hways|].
  split.
  - exact (proj1 (C3_invalid_configured_class md10 [0%Z; 5%Z] 2 5%Z Hin Hnot)
             Hways).
  - exact (proj2 (C3_invalid_configured_class md10 [0%Z; 5%Z] 2 5%Z Hin Hnot)).
Defined.

(** With the class 5 as override, the failure is the [ValueError] of the
    draw, raised once the index has been read (and written); and at
    construction a class list shorter than [ways] fails on its length. *)
Lemma C3_override_counterexample :
  (5%Z ∉ MetaDataset.labels md10)
  ∧ TaskGenerator.sample (Some [5%Z]) 1 (world10 2 draws)
    = (Raise ValueError,
       TaskGenerator.World
         (TaskGenerator.mk
            (MetaDataset.mk ds10
               [(0%Z, [0; 1; 2]); (1%Z, [3; 4; 5]); (2%Z, [6; 7; 8; 9]);
                (5%Z, [])]
               [0%Z; 1%Z; 2%Z])
            2 [0%Z; 1%Z; 2%Z])
         draws)
  ∧ ValueError ≠ InvalidClassError
  ∧ TaskGenerator.__init__ md10 (Some [5%Z]) 3 = Raise InsufficientClassesError
  ∧ InsufficientClassesError ≠ InvalidClassError.
Proof.
  split_and!; [|reflexivity|discriminate|reflexivity|discriminate].
  apply (bool_decide_unpack _); vm_compute; exact I.
Qed.

(** *** C4: what a call writes *)

(** C4 does not hold of [sample]: a call with a class that the index does
    not hold as override (here 5, with [shots = 1], which raises) files an
    empty list under that class in [labels_to_indices]; [labels],
    [classes] and [ways] stay as they were. *)
Theorem C4_sample_writes_labels_to_indices :
  ∃ w',
    TaskGenerator.sample (Some [5%Z]) 1 (world10 2 draws) = (Raise ValueError, w')
    ∧ index w' = index (world10 2 draws) ++ [(5%Z, [])]
    ∧ index w' ≠ index (world10 2 draws)
    ∧ MetaDataset.labels (TaskGenerator.dataset (TaskGenerator.self w'))
      = MetaDataset.labels md10
    ∧ TaskGenerator.classes (TaskGenerator.self w') = [0%Z; 1%Z; 2%Z]
    ∧ TaskGenerator.ways (TaskGenerator.self w') = 2%Z.
Proof.
  eexists. split; [reflexivity|]. split_and!; try reflexivity. discriminate.
Qed.

(** *** C5: the example of the specification *)

Lemma C5_items_from_class_positions_witness :
  TaskGenerator.sample (Some [0%Z; 2%Z]) 3 (world10 3 draws)
  = (Ok episode_0_2, world10 3 [])
  ∧ ∃ chunks : list (list nat),
      Forall2 (λ c chunk,
                 Z.of_nat (length chunk) = 3%Z
                 ∧ (∀ i, i ∈ chunk → i ∈ pool (world10 3 draws) c)
                 ∧ (constructed md10 →
                    ∀ i, i ∈ chunk → ∃ x, ds10 !! i = Some (x, c)))
              (SampleDataset.sampled_classes episode_0_2) chunks
      ∧ Forall2 (λ i x, ∃ l, ds10 !! i = Some (x, l))
                (concat chunks) (SampleDataset.data episode_0_2)
      ∧ SampleDataset.label episode_0_2
        = concat (replicate (Z.to_nat 3)
                    <$> seq 0 (length (SampleDataset.sampled_classes episode_0_2)))
      ∧ Z.of_nat (length (SampleDataset.data episode_0_2))
        = (Z.of_nat (length (SampleDataset.sampled_classes episode_0_2)) * 3)%Z.
Proof.
  split; [reflexivity|].
  apply (C5_items_from_class_positions (Some [0%Z; 2%Z]) 3
           (world10 3 draws) episode_0_2 (world10 3 [])).
  reflexivity.
Defined.

(** *** C6: fewer positions than shots *)

Lemma C6_insufficient_shots_witness :
  classes_to_sample (Some [0%Z; 1%Z]) (world10 2 draws)
  = (Ok [0%Z; 1%Z], world10 2 draws)
  ∧ 0%Z ∈ [0%Z; 1%Z]
  ∧ (Z.of_nat (length (pool (world10 2 draws) 0%Z)) < 4)%Z
  ∧ ∃ e w',
      TaskGenerator.sample (Some [0%Z; 1%Z]) 4 (world10 2 draws) = (Raise e, w')
      ∧ (NoDup [0%Z; 1%Z] → (4 < 2 ^ 64)%Z → e = InsufficientShotsError)
      ∧ (NoDup [0%Z; 1%Z] → e = InsufficientShotsError ∨ e = OverflowError).
Proof.
  assert (0%Z ∈ [0%Z; 1%Z]) as Hin
    by (apply (bool_decide_unpack _); vm_compute; exact I).
  split; [reflexivity|]. split; [exact Hin|]. split; [reflexivity|].
  apply (C6_insufficient_shots (Some [0%Z; 1%Z]) 4 (world10 2 draws)
           [0%Z; 1%Z] (world10 2 draws) 0%Z); [reflexivity | exact Hin | reflexivity].
Defined.

(** With the class 0 twice as override and [shots = 4], class 0 has only
    3 positions, yet the exception is the [DuplicateLabelError] of the
    encoder; and with the class 0 alone and [shots = 2 ^ 64], a count
    that no C long holds, it is the [OverflowError] of the draw. *)
Lemma C6_duplicate_first_counterexample :
  0%Z ∈ [0%Z; 0%Z]
  ∧ (Z.of_nat (length (pool (world10 2 draws) 0%Z)) < 4)%Z
  ∧ TaskGenerator.sample (Some [0%Z; 0%Z]) 4 (world10 2 draws)
    = (Raise DuplicateLabelError, world10 2 draws)
  ∧ DuplicateLabelError ≠ InsufficientShotsError
  ∧ (Z.of_nat (length (pool (world10 2 draws) 0%Z)) < 2 ^ 64)%Z
  ∧ TaskGenerator.sample (Some [0%Z]) (2 ^ 64) (world10 2 draws)
    = (Raise OverflowError, world10 2 draws)
  ∧ OverflowError ≠ InsufficientShotsError.
Proof.
  split_and!;
    [|reflexivity|reflexivity|discriminate|reflexivity|reflexivity|discriminate].
  apply (bool_decide_unpack _); vm_compute; exact I.
Qed.

(** *** C8 and C9: the encoder *)

Lemma C8_duplicate_label_witness :
  ¬ NoDup [0%Z; 0%Z]
  ∧ (LabelEncoder.__init__ [0%Z; 0%Z] = Raise DuplicateLabelError
     ∧ (∀ shots (w : TaskGenerator.world nat Z),
          TaskGenerator.sample (Some [0%Z; 0%Z]) shots w
          = (Raise DuplicateLabelError, w))
     ∧ (∀ shots (w w1 : TaskGenerator.world nat Z),
          classes_to_sample None w = (Ok [0%Z; 0%Z], w1) →
          TaskGenerator.sample None shots w = (Raise DuplicateLabelError, w1))).
Proof.
  assert (¬ NoDup [0%Z; 0%Z]) as Hdup
    by (apply (bool_decide_unpack _); vm_compute; exact I).
  split; [exact Hdup|].
  exact (C8_duplicate_label (T:=nat) [0%Z; 0%Z] Hdup).
Defined.

(** A sampler configured with the classes 0, 0, 1 passes construction and
    can draw the class 0 twice. *)
Lemma sample_drawn_duplicate :
  TaskGenerator.__init__ md10 (Some [0%Z; 0%Z; 1%Z]) 2
  = Ok (TaskGenerator.mk md10 2 [0%Z; 0%Z; 1%Z])
  ∧ TaskGenerator.sample None 1
      (TaskGenerator.World (TaskGenerator.mk md10 2 [0%Z; 0%Z; 1%Z]) [0; 0])
    = (Raise DuplicateLabelError,
       TaskGenerator.World (TaskGenerator.mk md10 2 [0%Z; 0%Z; 1%Z]) []).
Proof. split; reflexivity. Qed.

Lemma C9_toIndex_toLabel_roundtrip_witness :
  NoDup [6%Z; 4%Z; 7%Z]
  ∧ 1 < length [6%Z; 4%Z; 7%Z]
  ∧ ∃ self c,
      LabelEncoder.__init__ [6%Z; 4%Z; 7%Z] = Ok self
      ∧ [6%Z; 4%Z; 7%Z] !! 1 = Some c
      ∧ dict_getitem (LabelEncoder.idx_to_class self) 1 = Ok c
      ∧ dict_getitem (LabelEncoder.class_to_idx self) c = Ok 1.
Proof.
  assert (NoDup [6%Z; 4%Z; 7%Z]) as Hnd
    by (apply (bool_decide_unpack _); vm_compute; exact I).
  assert (1 < length [6%Z; 4%Z; 7%Z]) as Hlt by (simpl; lia).
  split; [exact Hnd|]. split; [exact Hlt|].
  exact (C9_toIndex_toLabel_roundtrip [6%Z; 4%Z; 7%Z] 1 Hnd Hlt).
Defined.

(** *** The override example of the specification, for every generator *)

Lemma md10_is_constructed : constructed md10.
Proof. reflexivity. Qed.

(** On the ten-item dataset, [sample(classes=[0,2], shots=3)] returns,
    whatever the sampler's [ways] and the state of the generator, an
    episode of 6 items labelled 0,0,0,1,1,1: three payloads of the items
    labelled 0, then three payloads of the items labelled 2. *)
Lemma sample_0_2_always (ways : Z) (s : np.random.RandomState) :
  ∃ ep w',
    TaskGenerator.sample (Some [0%Z; 2%Z]) 3 (world10 ways s) = (Ok ep, w')
    ∧ SampleDataset.__len__ ep = 6
    ∧ SampleDataset.label ep = [0; 0; 0; 1; 1; 1]
    ∧ SampleDataset.sampled_classes ep = [0%Z; 2%Z]
    ∧ ∃ d0 d2,
        SampleDataset.data ep = d0 ++ d2
        ∧ length d0 = 3 ∧ length d2 = 3
        ∧ (∀ x, x ∈ d0 → x ∈ [100; 101; 102])
        ∧ (∀ x, x ∈ d2 → x ∈ [106; 107; 108; 109]).
Proof.
  destruct (sample_Some_succeeds [0%Z; 2%Z] 3 (world10 ways s))
    as (ep & w' & Hrun).
  { apply constructed_in_range, md10_is_constructed. }
  { apply (bool_decide_unpack _); vm_compute; exact I. }
  { intros c [->|[->|[]%elem_of_nil]%elem_of_cons]%elem_of_cons;
      vm_compute; split; discriminate. }
  exists ep, w'. split; [done|].
  apply sample_Ok in Hrun as (_ & _ & Hcs & Hlab & chunks & Hch & Hdata).
  simpl in Hcs, Hlab, Hch. rewrite Hcs in Hlab, Hch.
  apply Forall2_cons_inv_l in Hch as (ch0 & chunks' & [Hl0 Hs0] & Hch & ->).
  apply Forall2_cons_inv_l in Hch as (ch2 & chunks2 & [Hl2 Hs2] & Hch & ->).
  apply Forall2_nil_inv_l in Hch as ->. simpl in Hdata.
  rewrite app_nil_r in Hdata.
  apply Forall2_app_inv_l in Hdata as (d0 & d2 & Hd0 & Hd2 & Hdata).
  assert (∀ (pos : list nat) (pay : list nat) (ch d : list nat),
            ch ⊆+ pos →
            (∀ i, i ∈ pos → ∃ l x, ds10 !! i = Some (x, l) ∧ x ∈ pay) →
            Forall2 (λ i x, ∃ l, ds10 !! i = Some (x, l)) ch d →
            ∀ x, x ∈ d → x ∈ pay) as Hpay.
  { intros pos pay ch d Hsub Hpos Hf x (j & Hj)%list_elem_of_lookup_1.
    destruct (Forall2_lookup_r _ _ _ _ _ Hf Hj) as (i & Hi & l & Hx).
    destruct (Hpos i) as (l' & x' & Hx' & Hin).
    { eapply elem_of_submseteq; [|exact Hsub]. by eapply list_elem_of_lookup_2. }
    congruence. }
  split_and!.
  - unfold SampleDataset.__len__. rewrite Hdata, length_app.
    rewrite <- (Forall2_length _ _ _ Hd0), <- (Forall2_length _ _ _ Hd2). lia.
  - done.
  - done.
  - exists d0, d2. split_and!; [done| | | |].
    + rewrite <- (Forall2_length _ _ _ Hd0). lia.
    + rewrite <- (Forall2_length _ _ _ Hd2). lia.
    + apply (Hpay [0; 1; 2] _ ch0 d0 Hs0); [|done].
      intros i Hi. repeat (apply elem_of_cons in Hi as [->|Hi];
        [eexists _, _; split; [reflexivity|];
         apply (bool_decide_unpack _); vm_compute; exact I|]).
      by apply elem_of_nil in Hi.
    + apply (Hpay [6; 7; 8; 9] _ ch2 d2 Hs2); [|done].
      intros i Hi. repeat (apply elem_of_cons in Hi as [->|Hi];
        [eexists _, _; split; [reflexivity|];
         apply (bool_decide_unpack _); vm_compute; exact I|]).
      by apply elem_of_nil in Hi.
Qed.

(** On the ten-item dataset, [sample(shots=2)] on a 2-way sampler
    returns, whatever the state of the generator, an episode of 4 items
    labelled 0,0,1,1 whose classes are two distinct labels among 0, 1
    and 2. *)
Lemma sample_drawn_always (s : np.random.RandomState) :
  ∃ ep w',
    TaskGenerator.sample None 2 (world10 2 s) = (Ok ep, w')
    ∧ SampleDataset.__len__ ep = 4
    ∧ SampleDataset.label ep = [0; 0; 1; 1]
    ∧ length (SampleDataset.sampled_classes ep) = 2
    ∧ NoDup (SampleDataset.sampled_classes ep)
    ∧ SampleDataset.sampled_classes ep ⊆+ [0%Z; 1%Z; 2%Z].
Proof.
  destruct (sample_None_succeeds 2 (world10 2 s)) as (ep & w' & Hrun).
  { apply md10_is_constructed. }
  { reflexivity. }
  { reflexivity. }
  { apply (bool_decide_unpack _); vm_compute; exact I. }
  { simpl; lia. }
  { intros c Hc. simpl in Hc.
    repeat (apply elem_of_cons in Hc as [->|Hc];
            [vm_compute; split; discriminate|]).
    by apply elem_of_nil in Hc. }
  exists ep, w'. split; [done|].
  apply sample_Ok in Hrun as (Hnd & _ & [Hsub Hways] & Hlab & chunks & Hch & Hdata).
  simpl in Hways.
  change (np.array _) with [0%Z; 1%Z; 2%Z] in Hsub.
  assert (length (SampleDataset.sampled_classes ep) = 2) as Hlen by lia.
  rewrite Hlen in Hlab. split_and!; try done.
  unfold SampleDataset.__len__. rewrite <- (Forall2_length _ _ _ Hdata).
  pose proof (episode_length 2 _ chunks
                (λ c chunk, chunk ⊆+ pool (world10 2 s) c) Hch) as Hn.
  lia.
Qed.

(** * Further properties of the module *)

(** ** MetaDataset: the labels and the lists of positions *)

Section MetaDataset_more.
Context {T L : Type} `{EqDecision L}.
Implicit Types (ds : list (T * L)) (d : list (L * list nat)).
Implicit Types (md : MetaDataset.t T L).

(** An invariant of the scan is one that holds of the empty index and
    that filing one more position keeps. *)
Lemma scan_invariant (P : nat → list (L * list nat) → Prop) ds :
  P 0 [] →
  (∀ n d x l, ds !! n = Some (x, l) → index_upto ds n d → P n d →
              P (S n) (defaultdict_append d l n)) →
  ∀ n, n ≤ length ds →
       ∃ d, for_in (scan_step ds) (seq 0 n) [] = Ok d
            ∧ index_upto ds n d ∧ P n d.
Proof.
  intros H0 Hstep. induction n as [|n IH]; intros Hn.
  - exists []. split_and!; [done | apply index_upto_0 | done].
  - destruct IH as (d & Hd & Hinv & HP); [lia|].
    destruct (lookup_lt_is_Some_2 ds n) as [[x l] Hx]; [lia|].
    exists (defaultdict_append d l n). split_and!.
    + rewrite seq_S, for_in_app, Hd. simpl.
      unfold scan_step, list_getitem. by rewrite Hx.
    + by eapply index_upto_step.
    + by eapply Hstep.
Qed.

Lemma MetaDataset_init_invariant (P : nat → list (L * list nat) → Prop) ds :
  P 0 [] →
  (∀ n d x l, ds !! n = Some (x, l) → index_upto ds n d → P n d →
              P (S n) (defaultdict_append d l n)) →
  ∃ d, MetaDataset.__init__ ds = Ok (MetaDataset.mk ds d (dict_keys d))
       ∧ index_upto ds (length ds) d ∧ P (length ds) d.
Proof.
  intros H0 Hstep.
  destruct (scan_invariant P ds H0 Hstep (length ds)) as (d & Hd & Hinv & HP);
    [done|].
  exists d. split_and!; [|done|done].
  unfold MetaDataset.__init__, MetaDataset.get_dict_of_labels_to_indices.
  change (for_in _ (seq 0 (length ds)) [])
    with (for_in (scan_step ds) (seq 0 (length ds)) []).
  by rewrite Hd.
Qed.

(** X1. The [labels] of a [MetaDataset] are the labels of the wrapped
    dataset, each once, in the order in which the scan first meets them
    ([remove_dups] keeps the last occurrence of each element, hence the
    first one on the reversed list); they are the keys of the index. *)
Theorem X1_labels_first_seen ds :
  ∃ md, MetaDataset.__init__ ds = Ok md
    ∧ MetaDataset.labels md = reverse (remove_dups (reverse (ds.*2)))
    ∧ MetaDataset.labels md = dict_keys (MetaDataset.labels_to_indices md)
    ∧ NoDup (MetaDataset.labels md)
    ∧ (∀ l, l ∈ MetaDataset.labels md ↔ ∃ i x, ds !! i = Some (x, l)).
Proof.
  destruct (MetaDataset_init_invariant
              (λ n d, dict_keys d = reverse (remove_dups (reverse ((take n ds).*2))))
              ds) as (d & Hd & Hinv & HP).
  { done. }
  { intros n d x l Hx Hinv HP.
    rewrite dict_keys_defaultdict_append, (take_S_r _ _ _ Hx), fmap_app.
    simpl. rewrite reverse_snoc. simpl.
    assert (l ∈ dict_keys d ↔ l ∈ reverse ((take n ds).*2)) as Hiff.
    { by rewrite HP, elem_of_reverse, elem_of_remove_dups. }
    destruct (decide_rel (∈) l (reverse ((take n ds).*2))) as [Hin|Hnin].
    - by rewrite decide_True by (by apply Hiff).
    - rewrite decide_False by (by rewrite Hiff).
      by rewrite reverse_cons, HP. }
  eexists. split; [exact Hd|]. simpl.
  rewrite take_ge in HP by done. split_and!; [done|done| |].
  - apply (index_keys_NoDup _ _ _ Hinv).
  - intros l. rewrite (index_keys _ _ _ Hinv). split.
    + intros (i & x & _ & Hx). by exists i, x.
    + intros (i & x & Hx). exists i, x. split; [by eapply lookup_lt_Some|done].
Qed.

Lemma MetaDataset_init_positions ds :
  ∃ md, MetaDataset.__init__ ds = Ok md
    ∧ (∀ l, l ∈ MetaDataset.labels md →
            peek (MetaDataset.labels_to_indices md) l ≠ [])
    ∧ (∀ l i j a b,
         i < j →
         peek (MetaDataset.labels_to_indices md) l !! i = Some a →
         peek (MetaDataset.labels_to_indices md) l !! j = Some b →
         a < b).
Proof.
  destruct (MetaDataset_init_invariant
              (λ n d, (∀ l, l ∈ dict_keys d → peek d l ≠ [])
                      ∧ ∀ l i j a b, i < j → peek d l !! i = Some a →
                                     peek d l !! j = Some b → a < b)
              ds) as (d & Hd & Hinv & Hne & Hsorted).
  { split; [by intros l ?%elem_of_nil | by intros l i j a b _ ?]. }
  { intros n d x l Hx Hinv [Hne Hsorted].
    assert (∀ l', peek (defaultdict_append d l n) l'
                  = if decide (l = l') then peek d l ++ [n] else peek d l')
      as Hpeek.
    { intros l'. unfold peek at 1. rewrite dict_get_defaultdict_append.
      by destruct (decide (l = l')). }
    split.
    - intros l' Hl'. rewrite Hpeek. destruct (decide (l = l')) as [<-|Hneq].
      + by intros [? ?]%app_eq_nil.
      + apply Hne. rewrite dict_keys_defaultdict_append in Hl'.
        case_decide; [done|].
        apply elem_of_app in Hl' as [?|?%list_elem_of_singleton]; [done|].
        congruence.
    - intros l' i j a b Hij. rewrite Hpeek.
      destruct (decide (l = l')) as [<-|Hneq]; [|by apply Hsorted].
      intros Ha Hb.
      assert (i < length (peek d l)) as Hi.
      { apply lookup_lt_Some in Hb. rewrite length_app in Hb. simpl in Hb. lia. }
      rewrite lookup_app_l in Ha by done.
      destruct (decide (j < length (peek d l))) as [Hj|Hj].
      + rewrite lookup_app_l in Hb by done. exact (Hsorted l i j a b Hij Ha Hb).
      + rewrite lookup_app_r in Hb by lia.
        apply list_lookup_singleton_Some in Hb as [_ <-].
        apply list_elem_of_lookup_2 in Ha.
        by apply (index_filed _ _ _ Hinv) in Ha as [? _]. }
  eexists. split; [exact Hd|]. simpl. split; [exact Hne | exact Hsorted].
Qed.

(** X2. In the index of a [MetaDataset], every label has at least one
    position, and the positions of a label are listed in increasing
    order. *)
Theorem X2_positions_increasing ds :
  ∃ md, MetaDataset.__init__ ds = Ok md
    ∧ (∀ l, l ∈ MetaDataset.labels md →
            peek (MetaDataset.labels_to_indices md) l ≠ [])
    ∧ (∀ l i j a b,
         i < j →
         peek (MetaDataset.labels_to_indices md) l !! i = Some a →
         peek (MetaDataset.labels_to_indices md) l !! j = Some b →
         a < b).
Proof. apply MetaDataset_init_positions. Qed.

Lemma constructed_pool_nonempty md l :
  constructed md → l ∈ MetaDataset.labels md →
  peek (MetaDataset.labels_to_indices md) l ≠ [].
Proof.
  unfold constructed. intros Hc.
  destruct (MetaDataset_init_positions (MetaDataset.dataset md))
    as (md' & Hmd' & Hne & _).
  rewrite Hc in Hmd'. injection Hmd' as <-. apply Hne.
Qed.

Lemma MetaDataset_init_constructed ds md :
  MetaDataset.__init__ ds = Ok md → MetaDataset.dataset md = ds ∧ constructed md.
Proof.
  intros Hmd. destruct (MetaDataset_init_spec ds) as (d & Hd & _).
  rewrite Hd in Hmd. injection Hmd as <-. split; [done|]. exact Hd.
Qed.

(** The positions filed under a label are pairwise distinct. *)
Lemma index_pool_NoDup ds n d l : index_upto ds n d → NoDup (peek d l).
Proof.
  intros Hinv. unfold peek. destruct (dict_get l d) as [v|] eqn:Hv; simpl;
    [|constructor].
  pose proof (index_partition _ _ _ Hinv) as Hperm.
  assert (NoDup (concat (dict_values d))) as Hnd
    by (rewrite Hperm; apply NoDup_seq).
  clear Hperm Hinv. unfold dict_values in Hnd.
  induction d as [|[k v'] d IH]; simpl in *; [done|].
  apply NoDup_app in Hnd as (Hv' & _ & Hrest).
  destruct (decide (l = k)); [by simplify_eq | by apply IH].
Qed.
(** X16. Reading a [MetaDataset] through [__getitem__] agrees with its
    index: the item at a position has label [l] exactly when the index
    files the position under [l]; the positions that can be read are those
    below [__len__], which is the length of the wrapped dataset, and a
    read from there on raises [IndexError]. *)
Theorem X16_getitem_agrees_with_index ds :
  ∃ md, MetaDataset.__init__ ds = Ok md
    ∧ MetaDataset.__len__ md = length ds
    ∧ (∀ i l,
         (∃ x, MetaDataset.__getitem__ md i = Ok (x, l))
         ↔ i ∈ peek (MetaDataset.labels_to_indices md) l)
    ∧ (∀ i, i < MetaDataset.__len__ md →
            ∃ item, MetaDataset.__getitem__ md i = Ok item ∧ ds !! i = Some item)
    ∧ (∀ i, MetaDataset.__len__ md ≤ i →
            MetaDataset.__getitem__ md i = Raise IndexError).
Proof.
  destruct (MetaDataset_init_spec ds) as (d & Hd & Hinv).
  eexists. split; [exact Hd|].
  unfold MetaDataset.__len__, MetaDataset.__getitem__, list_getitem. simpl.
  split_and!; [done| | |].
  - intros i l. rewrite (index_filed _ _ _ Hinv). split.
    + intros [x Hx]. destruct (ds !! i) as [[x' l']|] eqn:Hi; [|done].
      injection Hx as -> ->. split; [by eapply lookup_lt_Some | by exists x].
    + intros [_ [x ->]]. by exists x.
  - intros i Hi. destruct (lookup_lt_is_Some_2 ds i Hi) as [item ->].
    by exists item.
  - intros i Hi. by rewrite lookup_ge_None_2.
Qed.
End MetaDataset_more.

(** ** LabelEncoder: the two maps *)

Section LabelEncoder_more.
Context {L : Type} `{EqDecision L}.
Implicit Types (classes : list L) (self : LabelEncoder.t L).

Lemma encoded_idx_to_class_shape classes :
  dict_keys (LabelEncoder.idx_to_class (encoded classes))
  = seq 0 (length classes)
  ∧ dict_values (LabelEncoder.idx_to_class (encoded classes)) = classes.
Proof.
  induction classes as [|c classes [IHk IHv]] using rev_ind; [done|].
  rewrite encoded_snoc. simpl. unfold dict_update1.
  rewrite dict_setitem_absent.
  - unfold dict_keys, dict_values in *.
    rewrite !fmap_app, IHk, IHv, length_app, Nat.add_1_r, seq_S. done.
  - rewrite IHk, elem_of_seq. lia.
Qed.

Lemma encoded_class_to_idx_shape classes :
  NoDup classes →
  dict_keys (LabelEncoder.class_to_idx (encoded classes)) = classes
  ∧ dict_values (LabelEncoder.class_to_idx (encoded classes))
    = seq 0 (length classes).
Proof.
  induction classes as [|c classes IH] using rev_ind; intros Hnd; [done|].
  apply NoDup_app in Hnd as (Hnd & Hfresh & _).
  destruct (IH Hnd) as [IHk IHv].
  rewrite encoded_snoc. simpl. unfold dict_update1.
  rewrite dict_setitem_absent.
  - unfold dict_keys, dict_values in *.
    rewrite !fmap_app, IHk, IHv, length_app, Nat.add_1_r, seq_S. done.
  - rewrite IHk. intros Hc. apply (Hfresh c Hc), list_elem_of_here.
Qed.

(** X3. For a [LabelEncoder] built from a class list without repeats
    and every class [c] of the list, [idx_to_class] gives [c] back for
    the index that [class_to_idx] gives for [c], and that index is the
    position of [c] in the list. *)
Theorem X3_toLabel_toIndex_roundtrip classes (c : L) :
  NoDup classes → c ∈ classes →
  ∃ self i,
    LabelEncoder.__init__ classes = Ok self
    ∧ classes !! i = Some c
    ∧ dict_getitem (LabelEncoder.class_to_idx self) c = Ok i
    ∧ dict_getitem (LabelEncoder.idx_to_class self) i = Ok c.
Proof.
  intros Hnd (i & Hi)%list_elem_of_lookup_1.
  exists (encoded classes), i.
  split; [by apply LabelEncoder_init_NoDup|]. split; [done|].
  unfold dict_getitem.
  by rewrite (encoded_class_to_idx _ i c), encoded_idx_to_class, Hi.
Qed.

(** X4. A [LabelEncoder] built from a class list without repeats maps
    the classes, in the order of the list, to [0, 1, ...] and these
    indices, in order, to the classes, and nothing else: a lookup of any
    other class in [class_to_idx], or of any other index in
    [idx_to_class], raises [KeyError]. *)
Theorem X4_encoder_maps classes :
  NoDup classes →
  ∃ self,
    LabelEncoder.__init__ classes = Ok self
    ∧ dict_keys (LabelEncoder.class_to_idx self) = classes
    ∧ dict_values (LabelEncoder.class_to_idx self) = seq 0 (length classes)
    ∧ dict_keys (LabelEncoder.idx_to_class self) = seq 0 (length classes)
    ∧ dict_values (LabelEncoder.idx_to_class self) = classes
    ∧ (∀ c, c ∉ classes →
            dict_getitem (LabelEncoder.class_to_idx self) c = Raise KeyError)
    ∧ (∀ i, length classes ≤ i →
            dict_getitem (LabelEncoder.idx_to_class self) i = Raise KeyError).
Proof.
  intros Hnd. exists (encoded classes).
  destruct (encoded_class_to_idx_shape classes Hnd) as [Hk Hv].
  destruct (encoded_idx_to_class_shape classes) as [Hk' Hv'].
  split; [by apply LabelEncoder_init_NoDup|]. split_and!; try done.
  - intros c Hc. unfold dict_getitem.
    rewrite (proj2 (dict_get_None _ c)); [done|]. by rewrite Hk.
  - intros i Hi. unfold dict_getitem.
    by rewrite encoded_idx_to_class, lookup_ge_None_2.
Qed.
End LabelEncoder_more.

(** ** TaskGenerator: the constructor *)

Section TaskGenerator_more.
Context {T L : Type} `{EqDecision L} `{np.Scalar L}.
Implicit Types (w : TaskGenerator.world T L) (self : TaskGenerator.t T L).
Implicit Types (md : MetaDataset.t T L) (cs classes : list L) (shots : Z).

Lemma TaskGenerator_init_run md (classes0 : option (list L)) (ways : Z) :
  let cs := default (MetaDataset.labels md) classes0 in
  TaskGenerator.__init__ md classes0 ways =
  if decide (Z.of_nat (length cs) < ways)%Z then Raise InsufficientClassesError
  else if decide (Forall (λ c, c ∈ MetaDataset.labels md) cs)
       then Ok (TaskGenerator.mk md ways cs)
       else Raise InvalidClassError.
Proof.
  intros cs. unfold TaskGenerator.__init__.
  change (match classes0 with
          | Some classes => classes
          | None => MetaDataset.labels md
          end) with cs.
  simpl. generalize cs. clear cs classes0. intros cs.
  destruct (decide (Z.of_nat (length cs) < ways)%Z) as [Hlt|Hge].
  - rewrite bool_decide_eq_false_2 by lia. done.
  - rewrite bool_decide_eq_true_2 by lia.
    destruct (check_classes_cases (TaskGenerator.mk md ways cs) cs)
      as [[-> Hall]|[-> (c & Hc & Hn)]]; simpl in *.
    + rewrite decide_True; [done|]. by apply Forall_forall.
    + rewrite decide_False; [done|]. rewrite Forall_forall. naive_solver.
Qed.

(** X5. The constructor of [TaskGenerator] raises
    [InsufficientClassesError] when the class list ([labels] of the
    dataset when [classes] is left out) has fewer than [ways] classes,
    else [InvalidClassError] when one of its classes is not among
    [labels], and else returns the sampler with the fields as given; with
    [classes] left out it succeeds exactly when [ways] is at most the
    number of labels. *)
Theorem X5_constructor_outcome md (classes0 : option (list L)) (ways : Z) :
  (let cs := default (MetaDataset.labels md) classes0 in
   TaskGenerator.__init__ md classes0 ways =
   if decide (Z.of_nat (length cs) < ways)%Z then Raise InsufficientClassesError
   else if decide (Forall (λ c, c ∈ MetaDataset.labels md) cs)
        then Ok (TaskGenerator.mk md ways cs)
        else Raise InvalidClassError)
  ∧ TaskGenerator.__init__ md None ways =
    if decide (ways ≤ Z.of_nat (length (MetaDataset.labels md)))%Z
    then Ok (TaskGenerator.mk md ways (MetaDataset.labels md))
    else Raise InsufficientClassesError.
Proof.
  split; [apply TaskGenerator_init_run|].
  rewrite (TaskGenerator_init_run md None ways). simpl.
  destruct (decide (Z.of_nat (length (MetaDataset.labels md)) < ways)%Z).
  - by rewrite decide_False by lia.
  - rewrite (decide_True (P := Forall _ _)) by (by apply Forall_forall).
    by rewrite decide_True by lia.
Qed.

(** A negative count is refused: with [OverflowError] when no C long
    holds it and the population is not empty, else with [ValueError]. *)
Lemma choice_negative {A : Type} (a : list A) (size : Z) s :
  (size < 0)%Z →
  ∃ e, np.random.choice a size s = (Raise e, s)
       ∧ (e = ValueError ∨ e = OverflowError)
       ∧ (e = OverflowError ↔ (size < - 2 ^ 63)%Z ∧ a ≠ []).
Proof.
  intros Hneg. unfold np.random.choice.
  destruct (bool_decide (length a = 0) && negb (size =? 0)%Z) eqn:Hempty.
  { apply andb_true_iff in Hempty as [Hlen%bool_decide_eq_true _].
    apply nil_length_inv in Hlen as ->.
    exists ValueError. split_and!; [done|by left|]. split; [done|].
    by intros [_ ?]. }
  assert (a ≠ []) as Hne.
  { intros ->. apply andb_false_iff in Hempty as [Hlen|Hz].
    - by apply bool_decide_eq_false in Hlen.
    - apply negb_false_iff, Z.eqb_eq in Hz. lia. }
  destruct ((0 <=? size) && (size <=? Z.of_nat (length a)))%Z eqn:Hin.
  { apply andb_true_iff in Hin as [H0%Z.leb_le _]. lia. }
  destruct ((size <? - 2 ^ 63) || (2 ^ 64 <=? size))%Z eqn:Hov.
  - apply orb_true_iff in Hov as [Hlt%Z.ltb_lt|Hge%Z.leb_le]; [|lia].
    exists OverflowError. split_and!; [done|by right|]. by split.
  - apply orb_false_iff in Hov as [Hlt%Z.ltb_ge _].
    exists ValueError. split_and!; [done|by left|].
    split; [done|]. intros [? _]. lia.
Qed.

(** X6. A negative [ways] passes construction, as any class list has at
    least that many classes; every call of [sample] without an override
    on such a sampler then fails in the draw of the classes and leaves
    the sampler and the generator as they were. The exception is
    [OverflowError] when [ways] is below [- 2 ^ 63] and the class list,
    as numpy converts it, is not empty, and [ValueError] otherwise. *)
Theorem X6_negative_ways md classes (ways : Z) :
  (ways < 0)%Z → (∀ c, c ∈ classes → c ∈ MetaDataset.labels md) →
  TaskGenerator.__init__ md (Some classes) ways
  = Ok (TaskGenerator.mk md ways classes)
  ∧ ∀ shots s,
      let w := TaskGenerator.World (TaskGenerator.mk md ways classes) s in
      ∃ e, TaskGenerator.sample None shots w = (Raise e, w)
           ∧ (e = ValueError ∨ e = OverflowError)
           ∧ (e = OverflowError ↔ (ways < - 2 ^ 63)%Z ∧ np.array classes ≠ []).
Proof.
  intros Hneg Hvalid. split.
  - rewrite TaskGenerator_init_run. simpl.
    rewrite decide_False by lia. rewrite decide_True; [done|].
    by apply Forall_forall.
  - intros shots s w. rewrite sample_split, classes_to_sample_None.
    rewrite check_classes_Ok by done. simpl.
    destruct (choice_negative (np.array classes) ways s Hneg)
      as (e & -> & He & Hov).
    by exists e.
Qed.

(** ** TaskGenerator: sample *)

(** X10. A call of [sample] without an override, on a sampler whose
    dataset is as its constructor built it and whose class list numpy
    converts to itself, leaves every field of the sampler and of the
    dataset as it was, whether it returns or raises: only the generator
    moves. *)
Theorem X10_no_override_pure shots w r w' :
  constructed (TaskGenerator.dataset (TaskGenerator.self w)) →
  np.array (TaskGenerator.classes (TaskGenerator.self w))
  = TaskGenerator.classes (TaskGenerator.self w) →
  TaskGenerator.sample None shots w = (r, w') →
  TaskGenerator.self w' = TaskGenerator.self w.
Proof. apply sample_None_pure. Qed.

(** X14. The classes of an episode returned by [sample] without an
    override are taken from the configured class list as numpy converts
    it, none more often than it is listed there, and every configured
    class is a label of the dataset; so when numpy converts the list to
    itself, each class of the episode is a configured class and a label
    of the dataset. *)
Theorem X14_drawn_classes shots w ep w' :
  TaskGenerator.sample None shots w = (Ok ep, w') →
  SampleDataset.sampled_classes ep
    ⊆+ np.array (TaskGenerator.classes (TaskGenerator.self w))
  ∧ (∀ c, c ∈ TaskGenerator.classes (TaskGenerator.self w) →
          c ∈ MetaDataset.labels (TaskGenerator.dataset (TaskGenerator.self w)))
  ∧ (np.array (TaskGenerator.classes (TaskGenerator.self w))
     = TaskGenerator.classes (TaskGenerator.self w) →
     ∀ c, c ∈ SampleDataset.sampled_classes ep →
          c ∈ TaskGenerator.classes (TaskGenerator.self w)
          ∧ c ∈ MetaDataset.labels
                  (TaskGenerator.dataset (TaskGenerator.self w))).
Proof.
  rewrite sample_split.
  destruct (classes_to_sample None w) as [[cs|e] w1] eqn:Hcs; [|done].
  apply classes_to_sample_Ok in Hcs as (_ & Hsub & _ & Hvalid).
  intros (_ & _ & -> & _)%sample_Some_Ok. split_and!; [done|done|].
  intros Hstable c Hc. rewrite Hstable in Hsub.
  assert (c ∈ TaskGenerator.classes (TaskGenerator.self w))
    by (by eapply elem_of_submseteq). auto.
Qed.

Lemma index_in_range_self w w1 :
  TaskGenerator.self w1 = TaskGenerator.self w →
  index_in_range w → index_in_range w1.
Proof. unfold index_in_range, pool, index. by intros ->. Qed.

(** A call on a given class list raises only for a repeated class or a
    refused draw, when the index holds positions of the dataset. *)
Lemma sample_Some_Raise cs shots w e w' :
  index_in_range w →
  TaskGenerator.sample (Some cs) shots w = (Raise e, w') →
  (e = DuplicateLabelError ∧ ¬ NoDup cs)
  ∨ (e = ValueError ∧ NoDup cs)
  ∨ (e = OverflowError ∧ NoDup cs ∧ (shots < - 2 ^ 63 ∨ 2 ^ 64 ≤ shots)%Z).
Proof.
  intros Hrange. rewrite sample_Some_run.
  destruct (decide (NoDup cs)) as [Hnd|Hdup].
  - rewrite LabelEncoder_init_NoDup by done.
    destruct (for_in (class_step _ shots) cs ([], []) w)
      as [[[di dl]|e1] w1] eqn:Hloop.
    + apply loop_spec in Hloop as (Hfr & _ & chunks & _ & Hch & _ & -> & _).
      simpl.
      destruct (mapM_fetch_succeeds
                  (TaskGenerator.dataset (TaskGenerator.self w1))
                  (concat chunks)) as [data ->]; [|done].
      intros i (chunk & Hi & Hchunk)%elem_of_concat.
      apply list_elem_of_lookup_1 in Hchunk as [j Hj].
      destruct (Forall2_lookup_r _ _ _ _ _ Hch Hj) as (c & _ & _ & Hsub).
      rewrite (frame_dataset _ _ Hfr). apply (Hrange c).
      by eapply elem_of_submseteq.
    + apply loop_spec in Hloop as (_ & _ & [->|[[-> Hov]|[_ (c & Hc & Hn)]]]).
      * intros [= <- _]. by right; left.
      * intros [= <- _]. by right; right.
      * destruct (encoded_knows cs c Hnd Hc) as [j Hj]. congruence.
  - rewrite LabelEncoder_init_dup by done. intros [= <- _]. by left.
Qed.

(** X7. Given an index that holds positions of the dataset and a number
    of shots other than 0, a call of [sample] with an override returns an
    episode exactly when the classes of the override are pairwise
    distinct and either there is none or [shots] is positive and at most
    the number of positions that the index holds for each of them; in
    particular it raises for every negative [shots] unless the list is
    empty. *)
Theorem X7_override_success cs shots w :
  index_in_range w → shots ≠ 0%Z →
  (∃ ep w', TaskGenerator.sample (Some cs) shots w = (Ok ep, w'))
  ↔ NoDup cs
    ∧ (cs = []
       ∨ ((0 < shots)%Z
          ∧ ∀ c, c ∈ cs → (shots ≤ Z.of_nat (length (pool w c)))%Z)).
Proof.
  intros Hrange Hshots. split.
  - intros (ep & w' & (Hnd & _ & _ & _ & chunks & Hch & _)%sample_Some_Ok).
    split; [done|]. destruct cs as [|c0 cs]; [by left|]. right.
    assert (∀ c, c ∈ c0 :: cs →
                 (0 ≤ shots ≤ Z.of_nat (length (pool w c)))%Z) as Hroom.
    { intros c (i & Hi)%list_elem_of_lookup_1.
      destruct (Forall2_lookup_l _ _ _ _ _ Hch Hi)
        as (chunk & _ & Hlen & Hsub%submseteq_length). lia. }
    split.
    + specialize (Hroom c0 (list_elem_of_here _ _)). lia.
    + intros c Hc. specialize (Hroom c Hc). lia.
  - intros [Hnd [->|[Hpos Hroom]]].
    + by eexists _, _.
    + apply sample_Some_succeeds; [done|done|].
      intros c Hc. specialize (Hroom c Hc). lia.
Qed.

(** X8. When the index holds positions of the dataset, the only
    exceptions that [sample] raises are [DuplicateLabelError], the
    [ValueError] of a refused draw, the [OverflowError] of a draw whose
    count no C long holds ([shots], or [ways] without an override, below
    [- 2 ^ 63] or from [2 ^ 64] on) and, without an override,
    [InvalidClassError]: neither the lookup of a class in the encoder nor
    the fetch of a drawn position fails. *)
Theorem X8_exceptions_raised (classes0 : option (list L)) shots w e w' :
  index_in_range w →
  TaskGenerator.sample classes0 shots w = (Raise e, w') →
  e = DuplicateLabelError
  ∨ e = ValueError
  ∨ (e = OverflowError
     ∧ ((shots < - 2 ^ 63 ∨ 2 ^ 64 ≤ shots)%Z
        ∨ (classes0 = None
           ∧ (TaskGenerator.ways (TaskGenerator.self w) < - 2 ^ 63
              ∨ 2 ^ 64 ≤ TaskGenerator.ways (TaskGenerator.self w))%Z)))
  ∨ (classes0 = None ∧ e = InvalidClassError).
Proof.
  intros Hrange. rewrite sample_split.
  destruct (classes_to_sample classes0 w) as [[cs|e1] w1] eqn:Hcs.
  - apply classes_to_sample_Ok in Hcs as [Hself _].
    intros [[-> _]|[[-> _]|(-> & _ & Hov)]]%sample_Some_Raise;
      [by left|by right; left|by right; right; left; split; [|left]|].
    by eapply index_in_range_self.
  - intros [= <- _]. destruct classes0 as [classes|]; [done|].
    rewrite classes_to_sample_None in Hcs.
    destruct (check_classes_cases (TaskGenerator.self w)
                (TaskGenerator.classes (TaskGenerator.self w)))
      as [[Hck _]|[Hck _]]; rewrite Hck in Hcs.
    + destruct (np.random.choice _ _ _) as [[cs|e2] s'] eqn:Hc; [done|].
      apply choice_Raise in Hc as [-> [->|[-> Hov]]]; injection Hcs as <-.
      * by right; left.
      * right; right; left. split; [done|]. by right.
    + injection Hcs as <-. by right; right; right.
Qed.

(** The positions drawn for distinct classes from a partition are
    pairwise distinct. *)
Lemma chunks_NoDup (ds : list (T * L)) n (d : list (L * list nat))
    cs (chunks : list (list nat)) :
  index_upto ds n d → NoDup cs →
  Forall2 (λ c chunk, chunk ⊆+ peek d c) cs chunks →
  NoDup (concat chunks).
Proof.
  intros Hinv Hnd Hch. induction Hch as [|c chunk cs chunks Hsub Hch IH];
    simpl; [constructor|].
  apply NoDup_cons in Hnd as [Hc Hnd]. apply NoDup_app. split_and!.
  - eapply submseteq_NoDup; [exact Hsub|]. by eapply index_pool_NoDup.
  - intros i Hi (chunk' & Hi' & Hchunk')%elem_of_concat.
    apply list_elem_of_lookup_1 in Hchunk' as [j Hj].
    destruct (Forall2_lookup_r _ _ _ _ _ Hch Hj) as (c' & Hc' & Hsub').
    pose proof (elem_of_submseteq _ _ _ Hi Hsub) as H1.
    pose proof (elem_of_submseteq _ _ _ Hi' Hsub') as H2.
    apply (index_filed _ _ _ Hinv) in H1 as [_ [x1 Hx1]].
    apply (index_filed _ _ _ Hinv) in H2 as [_ [x2 Hx2]].
    assert (c = c') as -> by congruence.
    apply Hc. by eapply list_elem_of_lookup_2.
  - by apply IH.
Qed.

(** X9. An episode returned by [sample], on a sampler whose dataset is as
    its constructor built it, never holds the same item of the dataset
    twice: its data are fetched from pairwise distinct positions. *)
Theorem X9_positions_distinct (classes0 : option (list L)) shots w ep w' :
  constructed (TaskGenerator.dataset (TaskGenerator.self w)) →
  TaskGenerator.sample classes0 shots w = (Ok ep, w') →
  ∃ positions : list nat,
    NoDup positions
    ∧ Forall2 (λ i x, ∃ l,
                 MetaDataset.dataset
                   (TaskGenerator.dataset (TaskGenerator.self w)) !! i
                 = Some (x, l))
              positions (SampleDataset.data ep).
Proof.
  intros [_ Hinv]%constructed_index
         (Hnd & _ & _ & _ & chunks & Hch & Hdata)%sample_Ok.
  exists (concat chunks). split; [|done].
  eapply chunks_NoDup; [exact Hinv|exact Hnd|].
  eapply Forall2_impl; [exact Hch|]. by intros c chunk [_ ?].
Qed.

(** What the loop over the classes writes to the index: empty lists,
    filed after the entries it found, under classes it did not hold. *)
Lemma loop_index label_encoder shots cs :
  ∀ di dl w r w',
  for_in (class_step label_encoder shots) cs (di, dl) w = (r, w') →
  ∃ extra,
    index w' = index w ++ ((λ c, (c, [])) <$> extra)
    ∧ NoDup extra
    ∧ ∀ c, c ∈ extra → c ∈ cs ∧ c ∉ dict_keys (index w).
Proof.
  induction cs as [|c cs IH]; intros di dl w r w' Hrun.
  - injection Hrun as _ <-. exists []. split_and!.
    + simpl. by rewrite app_nil_r.
    + constructor.
    + by intros c ?%elem_of_nil.
  - rewrite for_in_cons_run, class_step_run in Hrun.
    set (w1 s := TaskGenerator.World (TaskGenerator.self (touch c w)) s) in *.
    assert (∀ s, ∃ extra0,
              index (w1 s) = index w ++ ((λ c, (c, [])) <$> extra0)
              ∧ NoDup extra0
              ∧ (∀ c', c' ∈ extra0 → c' = c ∧ c' ∉ dict_keys (index w))
              ∧ c ∈ dict_keys (index (w1 s))) as Hstep.
    { intros s. change (index (w1 s)) with (index (touch c w)).
      destruct (decide (c ∈ dict_keys (index w))) as [Hin|Hnin].
      - exists []. rewrite touch_present by done. simpl. rewrite app_nil_r.
        split_and!; [done|constructor| |done]. by intros c' ?%elem_of_nil.
      - exists [c]. rewrite touch_absent by done. split_and!.
        + done.
        + apply NoDup_singleton.
        + by intros c' ->%list_elem_of_singleton.
        + unfold dict_keys. rewrite fmap_app, elem_of_app. right.
          by apply list_elem_of_singleton. }
    assert (∀ s r0, (r0, w1 s) = (r, w') →
              ∃ extra, index w' = index w ++ ((λ c, (c, [])) <$> extra)
                ∧ NoDup extra
                ∧ ∀ c', c' ∈ extra → c' ∈ c :: cs ∧ c' ∉ dict_keys (index w))
      as Hstop.
    { intros s r0 [= _ <-]. destruct (Hstep s) as (extra0 & Hi & Hnd & Hex & _).
      exists extra0. split_and!; [done|done|]. intros c' Hc'.
      destruct (Hex c' Hc') as [-> ?]. split; [apply list_elem_of_here|done]. }
    destruct (np.random.choice (pool w c) shots _) as [[chosen|e] s'];
      [|by eapply Hstop].
    cbv zeta in Hrun.
    destruct (dict_get c _) as [idx|]; [|by eapply Hstop].
    apply IH in Hrun as (extra1 & Hi1 & Hnd1 & Hex1).
    change (TaskGenerator.World (TaskGenerator.self (touch c w)) s')
      with (w1 s') in *.
    destruct (Hstep s') as (extra0 & Hi0 & Hnd0 & Hex0 & Hc).
    exists (extra0 ++ extra1). split_and!.
    + by rewrite Hi1, Hi0, fmap_app, (assoc_L (++)).
    + apply NoDup_app. split_and!; [done| |done].
      intros c' Hc0 Hc1. destruct (Hex0 c' Hc0) as [-> _].
      by destruct (Hex1 c Hc1).
    + intros c' [Hc'|Hc']%elem_of_app.
      * destruct (Hex0 c' Hc') as [-> ?]. split; [apply list_elem_of_here|done].
      * destruct (Hex1 c' Hc') as [? Hn].
        split; [by apply list_elem_of_further|].
        intros Hk. apply Hn. rewrite Hi0. unfold dict_keys.
        rewrite fmap_app, elem_of_app. by left.
Qed.

(** X11. Whatever its outcome, a call of [sample] never changes or
    removes an entry of [labels_to_indices]: all it can do is to file
    empty lists, after the entries it found, under classes that the index
    did not hold, taken from the override or, without one, from the
    configured class list as numpy converts it. *)
Theorem X11_index_only_extended (classes0 : option (list L)) shots w r w' :
  TaskGenerator.sample classes0 shots w = (r, w') →
  ∃ extra,
    index w' = index w ++ ((λ c, (c, [])) <$> extra)
    ∧ NoDup extra
    ∧ ∀ c, c ∈ extra →
           (c ∉ dict_keys (index w))
           ∧ c ∈ match classes0 with
                 | Some classes => classes
                 | None => np.array (TaskGenerator.classes (TaskGenerator.self w))
                 end.
Proof.
  rewrite sample_split.
  destruct (classes_to_sample classes0 w) as [[cs|e] w1] eqn:Hcs.
  - apply classes_to_sample_Ok in Hcs as [Hself Hcs].
    assert (index w1 = index w) as Hidx by (unfold index; by rewrite Hself).
    assert (∀ c, c ∈ cs →
                 c ∈ match classes0 with
                     | Some classes => classes
                     | None =>
                         np.array (TaskGenerator.classes (TaskGenerator.self w))
                     end) as Hfrom.
    { intros c Hc. destruct classes0 as [classes|].
      - by destruct Hcs as [<- _].
      - destruct Hcs as (Hsub & _). by eapply elem_of_submseteq. }
    rewrite sample_Some_run.
    destruct (LabelEncoder.__init__ cs) as [label_encoder|e].
    + destruct (for_in (class_step _ shots) cs ([], []) w1)
        as [r1 w2] eqn:Hloop.
      apply loop_index in Hloop as (extra & Hi & Hnd & Hex).
      rewrite Hidx in Hi, Hex. intros Hrun.
      assert (w' = w2) as ->.
      { destruct r1 as [[di dl]|e];
          [destruct (mapM (fetch (TaskGenerator.dataset
                                    (TaskGenerator.self w2))) di)|];
          congruence. }
      exists extra. split_and!; [done|done|].
      intros c Hc. destruct (Hex c Hc). auto.
    + intros [= _ <-]. exists []. rewrite Hidx. simpl. rewrite app_nil_r.
      split_and!; [done|constructor|by intros c ?%elem_of_nil].
  - intros [= _ <-].
    assert (TaskGenerator.self w1 = TaskGenerator.self w) as Hself.
    { destruct classes0 as [classes|]; [done|].
      rewrite classes_to_sample_None in Hcs.
      destruct (TaskGenerator._check_classes _ _); [|congruence].
      destruct (np.random.choice _ _ _). by injection Hcs as _ <-. }
    exists []. unfold index. rewrite Hself. simpl. rewrite app_nil_r.
    split_and!; [done|constructor|by intros c ?%elem_of_nil].
Qed.

(** *** The items of an episode *)

Lemma div_step (k idx : nat) : k ≠ 0 → k ≤ idx → idx / k = S ((idx - k) / k).
Proof.
  intros Hk Hle. replace idx with ((idx - k) + 1 * k) at 1 by lia.
  rewrite Nat.div_add by done. lia.
Qed.

Lemma blocks_lookup (k j n idx : nat) :
  idx < n * k →
  concat (replicate k <$> seq j n) !! idx = Some (j + idx / k).
Proof.
  revert j idx. induction n as [|n IH]; intros j idx Hidx; [lia|].
  assert (k ≠ 0) as Hk by lia. simpl.
  destruct (decide (idx < k)) as [Hlt|Hge].
  - rewrite lookup_app_l by (by rewrite length_replicate).
    rewrite lookup_replicate_2 by done. by rewrite Nat.div_small, Nat.add_0_r.
  - rewrite lookup_app_r by (rewrite length_replicate; lia).
    rewrite length_replicate, IH by lia.
    rewrite (div_step k idx) by lia. f_equal. lia.
Qed.

Lemma chunks_lookup {A : Type} (P : A → list nat → Prop) (k : nat)
    (l : list A) (chunks : list (list nat)) (idx i : nat) :
  Forall2 (λ x chunk, length chunk = k ∧ P x chunk) l chunks →
  concat chunks !! idx = Some i →
  ∃ x chunk, l !! (idx / k) = Some x ∧ P x chunk ∧ i ∈ chunk.
Proof.
  intros Hch. revert idx.
  induction Hch as [|x chunk l chunks [Hlen HP] Hrest IH]; intros idx Hi;
    simpl in Hi; [done|].
  destruct (decide (idx < k)) as [Hlt|Hge].
  - rewrite lookup_app_l in Hi by lia. exists x, chunk.
    rewrite Nat.div_small by done.
    split_and!; [done|done|by eapply list_elem_of_lookup_2].
  - rewrite lookup_app_r in Hi by lia. rewrite Hlen in Hi.
    assert (k ≠ 0) as Hk.
    { intros ->. apply lookup_lt_Some in Hi.
      pose proof (length_chunks P 0 l chunks Hrest) as Hz. lia. }
    destruct (IH _ Hi) as (x' & chunk' & Hx' & HP' & Hin).
    exists x', chunk'. rewrite (div_step k idx) by lia. done.
Qed.

(** X12. An episode returned by [sample] can be read at every index
    below its length, and only there: the item at index [idx] carries the
    dense label [idx / shots], and its data were fetched from a position
    that the index holds for the class of that rank among the classes of
    the episode; at an index from the length on, [__getitem__] raises
    [IndexError]. *)
Theorem X12_episode_getitem
    (classes0 : option (list L)) shots w ep w' (idx : nat) :
  TaskGenerator.sample classes0 shots w = (Ok ep, w') →
  (idx < SampleDataset.__len__ ep →
   ∃ x c i l,
     SampleDataset.__getitem__ ep idx = Ok (x, idx / Z.to_nat shots)
     ∧ SampleDataset.sampled_classes ep !! (idx / Z.to_nat shots) = Some c
     ∧ i ∈ pool w c
     ∧ MetaDataset.dataset (TaskGenerator.dataset (TaskGenerator.self w)) !! i
       = Some (x, l))
  ∧ (SampleDataset.__len__ ep ≤ idx →
     SampleDataset.__getitem__ ep idx = Raise IndexError).
Proof.
  intros (_ & _ & _ & Hlab & chunks & Hch & Hdata)%sample_Ok.
  unfold SampleDataset.__len__, SampleDataset.__getitem__, list_getitem.
  split.
  - intros Hidx.
    assert (Forall2 (λ c chunk, length chunk = Z.to_nat shots
                                ∧ chunk ⊆+ pool w c)
              (SampleDataset.sampled_classes ep) chunks) as Hch'.
    { eapply Forall2_impl; [exact Hch|]. simpl. intros c chunk [? ?].
      split; [lia|done]. }
    pose proof (length_chunks _ _ _ _ Hch') as Hlen.
    pose proof (Forall2_length _ _ _ Hdata) as Hlen'.
    destruct (lookup_lt_is_Some_2 (concat chunks) idx) as [i Hi]; [lia|].
    destruct (Forall2_lookup_l _ _ _ _ _ Hdata Hi) as (x & Hx & l & Hl).
    destruct (chunks_lookup _ _ _ _ _ _ Hch' Hi) as (c & chunk & Hc & Hsub & Hin).
    exists x, c, i, l. rewrite Hx. simpl. rewrite Hlab. unfold remapped.
    rewrite blocks_lookup by (rewrite <- Hlen, Hlen'; exact Hidx).
    rewrite Nat.add_0_l.
    split_and!; [reflexivity|done| |done].
    exact (elem_of_submseteq _ _ _ Hin Hsub).
  - intros Hidx.
    by rewrite (lookup_ge_None_2 (SampleDataset.data ep)) by done.
Qed.

(** *** The default call *)

(** X13. On a dataset wrapped by [MetaDataset] whose list of labels
    numpy converts to itself, a sampler built with [classes] left out and
    [ways] between 1 and the number of labels returns, on every call of
    [sample] with the default [shots] of 1 and whatever the state of the
    generator, an episode of [ways] items of pairwise distinct classes,
    and is left unchanged by the call. *)
Theorem X13_default_sample (ds : list (T * L)) md (ways : Z) s :
  MetaDataset.__init__ ds = Ok md →
  np.array (MetaDataset.labels md) = MetaDataset.labels md →
  (0 < ways ≤ Z.of_nat (length (MetaDataset.labels md)))%Z →
  ∃ tg ep w',
    TaskGenerator.__init__ md None ways = Ok tg
    ∧ TaskGenerator.sample None TaskGenerator.default_shots
        (TaskGenerator.World tg s) = (Ok ep, w')
    ∧ Z.of_nat (SampleDataset.__len__ ep) = ways
    ∧ NoDup (SampleDataset.sampled_classes ep)
    ∧ TaskGenerator.self w' = tg.
Proof.
  intros [_ Hmd]%MetaDataset_init_constructed Hstable Hways.
  pose proof (constructed_index md Hmd) as [Hlabels Hinv].
  set (tg := TaskGenerator.mk md ways (MetaDataset.labels md)).
  assert (TaskGenerator.__init__ md None ways = Ok tg) as Hinit.
  { rewrite TaskGenerator_init_run. simpl. rewrite decide_False by lia.
    rewrite decide_True; [done|]. by apply Forall_forall. }
  destruct (sample_None_succeeds TaskGenerator.default_shots
              (TaskGenerator.World tg s)) as (ep & w' & Hrun).
  { done. }
  { exact Hinit. }
  { exact Hstable. }
  { simpl. rewrite Hlabels. apply (index_keys_NoDup _ _ _ Hinv). }
  { simpl. lia. }
  { intros c Hc. simpl in Hc.
    pose proof (constructed_pool_nonempty md c Hmd Hc) as Hne.
    unfold pool, index, TaskGenerator.default_shots. simpl.
    destruct (peek (MetaDataset.labels_to_indices md) c); [done|].
    simpl. lia. }
  exists tg, ep, w'. split; [done|]. split; [done|].
  pose proof (sample_None_pure _ (TaskGenerator.World tg s) _ _ Hmd Hstable
                Hrun) as Hself.
  apply sample_Ok in Hrun as (Hnd & _ & [_ Hn] & _ & chunks & Hch & Hdata).
  split_and!; [|done|done].
  unfold SampleDataset.__len__. rewrite <- (Forall2_length _ _ _ Hdata).
  rewrite (episode_length _ _ chunks
             (λ c chunk, chunk ⊆+ pool (TaskGenerator.World tg s) c) Hch).
  unfold TaskGenerator.default_shots. simpl in Hn. lia.
Qed.

(** *** What a call with an override depends on *)

Lemma loop_same_dataset label_encoder shots cs :
  ∀ di dl w1 w2,
  TaskGenerator.dataset (TaskGenerator.self w1)
  = TaskGenerator.dataset (TaskGenerator.self w2) →
  TaskGenerator.np_random w1 = TaskGenerator.np_random w2 →
  let r1 := for_in (class_step label_encoder shots) cs (di, dl) w1 in
  let r2 := for_in (class_step label_encoder shots) cs (di, dl) w2 in
  r1.1 = r2.1
  ∧ TaskGenerator.dataset (TaskGenerator.self r1.2)
    = TaskGenerator.dataset (TaskGenerator.self r2.2)
  ∧ TaskGenerator.np_random r1.2 = TaskGenerator.np_random r2.2.
Proof.
  induction cs as [|c cs IH]; intros di dl w1 w2 Hmd Hs; [done|].
  cbv zeta. rewrite !for_in_cons_run, !class_step_run.
  assert (pool w1 c = pool w2 c) as -> by (unfold pool, index; by rewrite Hmd).
  assert (TaskGenerator.dataset (TaskGenerator.self (touch c w1))
          = TaskGenerator.dataset (TaskGenerator.self (touch c w2))) as Htouch.
  { unfold touch, TaskGenerator.labels_to_indices_getitem. rewrite Hmd.
    by destruct (defaultdict_getitem _ c). }
  rewrite Hs.
  destruct (np.random.choice (pool w2 c) shots _) as [[chosen|e] s']; [|done].
  cbv zeta. destruct (dict_get c _) as [idx|]; [|done].
  by apply IH.
Qed.

(** X15. With an override, [sample] reads neither [ways] nor the
    configured classes: two samplers over the same dataset, called with
    the same override, the same [shots] and the same state of the
    generator, return the same episode or raise the same exception, and
    leave the dataset and the generator in the same state. *)
Theorem X15_override_ignores_configuration
    md (ways1 ways2 : Z) classes1 classes2 cs shots s :
  let w1 := TaskGenerator.World (TaskGenerator.mk md ways1 classes1) s in
  let w2 := TaskGenerator.World (TaskGenerator.mk md ways2 classes2) s in
  let r1 := TaskGenerator.sample (Some cs) shots w1 in
  let r2 := TaskGenerator.sample (Some cs) shots w2 in
  r1.1 = r2.1
  ∧ TaskGenerator.dataset (TaskGenerator.self r1.2)
    = TaskGenerator.dataset (TaskGenerator.self r2.2)
  ∧ TaskGenerator.np_random r1.2 = TaskGenerator.np_random r2.2.
Proof.
  cbv zeta. rewrite !sample_Some_run.
  destruct (LabelEncoder.__init__ cs) as [label_encoder|e]; [|done].
  pose proof (loop_same_dataset label_encoder shots cs [] []
                (TaskGenerator.World (TaskGenerator.mk md ways1 classes1) s)
                (TaskGenerator.World (TaskGenerator.mk md ways2 classes2) s)
                eq_refl eq_refl) as Hloop.
  cbv zeta in Hloop.
  destruct (for_in (class_step _ shots) cs ([], []) (TaskGenerator.World (TaskGenerator.mk md ways1 classes1) s))
    as [r1 w1'].
  destruct (for_in (class_step _ shots) cs ([], []) (TaskGenerator.World (TaskGenerator.mk md ways2 classes2) s))
    as [r2 w2'].
  simpl in Hloop. destruct Hloop as (-> & Hmd & Hs).
  destruct r2 as [[di dl]|e]; [|done].
  rewrite Hmd.
  by destruct (mapM (fetch (TaskGenerator.dataset (TaskGenerator.self w2'))) di).
Qed.
End TaskGenerator_more.

(** ** Worked examples of the further properties *)

Lemma X3_toLabel_toIndex_roundtrip_witness :
  NoDup [6%Z; 4%Z; 7%Z]
  ∧ 4%Z ∈ [6%Z; 4%Z; 7%Z]
  ∧ ∃ self i,
      LabelEncoder.__init__ [6%Z; 4%Z; 7%Z] = Ok self
      ∧ [6%Z; 4%Z; 7%Z] !! i = Some 4%Z
      ∧ dict_getitem (LabelEncoder.class_to_idx self) 4%Z = Ok i
      ∧ dict_getitem (LabelEncoder.idx_to_class self) i = Ok 4%Z.
Proof.
  assert (NoDup [6%Z; 4%Z; 7%Z]) as Hnd
    by (apply (bool_decide_unpack _); vm_compute; exact I).
  assert (4%Z ∈ [6%Z; 4%Z; 7%Z]) as Hin
    by (apply (bool_decide_unpack _); vm_compute; exact I).
  split; [exact Hnd|]. split; [exact Hin|].
  exact (X3_toLabel_toIndex_roundtrip [6%Z; 4%Z; 7%Z] 4%Z Hnd Hin).
Defined.

Lemma X4_encoder_maps_witness :
  NoDup [6%Z; 4%Z; 7%Z]
  ∧ ∃ self,
      LabelEncoder.__init__ [6%Z; 4%Z; 7%Z] = Ok self
      ∧ dict_keys (LabelEncoder.class_to_idx self) = [6%Z; 4%Z; 7%Z]
      ∧ dict_values (LabelEncoder.class_to_idx self)
        = seq 0 (length [6%Z; 4%Z; 7%Z])
      ∧ dict_keys (LabelEncoder.idx_to_class self)
        = seq 0 (length [6%Z; 4%Z; 7%Z])
      ∧ dict_values (LabelEncoder.idx_to_class self) = [6%Z; 4%Z; 7%Z]
      ∧ (∀ c, c ∉ [6%Z; 4%Z; 7%Z] →
              dict_getitem (LabelEncoder.class_to_idx self) c = Raise KeyError)
      ∧ (∀ i, length [6%Z; 4%Z; 7%Z] ≤ i →
              dict_getitem (LabelEncoder.idx_to_class self) i = Raise KeyError).
Proof.
  assert (NoDup [6%Z; 4%Z; 7%Z]) as Hnd
    by (apply (bool_decide_unpack _); vm_compute; exact I).
  split; [exact Hnd|].
  exact (X4_encoder_maps [6%Z; 4%Z; 7%Z] Hnd).
Defined.

Lemma X6_negative_ways_witness :
  (-1 < 0)%Z
  ∧ (∀ c, c ∈ [0%Z; 1%Z] → c ∈ MetaDataset.labels md10)
  ∧ TaskGenerator.__init__ md10 (Some [0%Z; 1%Z]) (-1)
    = Ok (TaskGenerator.mk md10 (-1) [0%Z; 1%Z])
  ∧ ∀ shots s,
      let w := TaskGenerator.World (TaskGenerator.mk md10 (-1) [0%Z; 1%Z]) s in
      ∃ e, TaskGenerator.sample None shots w = (Raise e, w)
           ∧ (e = ValueError ∨ e = OverflowError)
           ∧ (e = OverflowError
              ↔ (-1 < - 2 ^ 63)%Z ∧ np.array [0%Z; 1%Z] ≠ []).
Proof.
  assert (-1 < 0)%Z as Hneg by lia.
  assert (∀ c, c ∈ [0%Z; 1%Z] → c ∈ MetaDataset.labels md10) as Hvalid.
  { intros c Hc.
    repeat (apply elem_of_cons in Hc as [->|Hc];
            [apply (bool_decide_unpack _); vm_compute; exact I|]).
    by apply elem_of_nil in Hc. }
  split; [exact Hneg|]. split; [exact Hvalid|].
  exact (X6_negative_ways md10 [0%Z; 1%Z] (-1) Hneg Hvalid).
Defined.

Lemma X7_override_success_witness :
  index_in_range (world10 2 draws)
  ∧ 3%Z ≠ 0%Z
  ∧ ((∃ ep w',
        TaskGenerator.sample (Some [0%Z; 2%Z]) 3 (world10 2 draws) = (Ok ep, w'))
     ↔ NoDup [0%Z; 2%Z]
       ∧ ([0%Z; 2%Z] = []
          ∨ ((0 < 3)%Z
             ∧ ∀ c, c ∈ [0%Z; 2%Z] →
                    (3 ≤ Z.of_nat (length (pool (world10 2 draws) c)))%Z))).
Proof.
  assert (index_in_range (world10 2 draws)) as Hrange
    by (apply constructed_in_range; reflexivity).
  assert (3%Z ≠ 0%Z) as Hshots by discriminate.
  split; [exact Hrange|]. split; [exact Hshots|].
  exact (X7_override_success [0%Z; 2%Z] 3 (world10 2 draws) Hrange Hshots).
Defined.

Lemma X8_exceptions_raised_witness :
  index_in_range (world10 2 draws)
  ∧ TaskGenerator.sample (Some [0%Z]) (2 ^ 64) (world10 2 draws)
    = (Raise OverflowError, world10 2 draws)
  ∧ (OverflowError = DuplicateLabelError
     ∨ OverflowError = ValueError
     ∨ (OverflowError = OverflowError
        ∧ ((2 ^ 64 < - 2 ^ 63 ∨ 2 ^ 64 ≤ 2 ^ 64)%Z
           ∨ (Some [0%Z] = None
              ∧ (TaskGenerator.ways (TaskGenerator.self (world10 2 draws))
                 < - 2 ^ 63
                 ∨ 2 ^ 64
                   ≤ TaskGenerator.ways (TaskGenerator.self (world10 2 draws)))%Z)))
     ∨ (Some [0%Z] = None ∧ OverflowError = InvalidClassError)).
Proof.
  assert (index_in_range (world10 2 draws)) as Hrange
    by (apply constructed_in_range; reflexivity).
  split; [exact Hrange|]. split; [reflexivity|].
  exact (X8_exceptions_raised (Some [0%Z]) (2 ^ 64) (world10 2 draws)
           OverflowError (world10 2 draws) Hrange eq_refl).
Defined.

Lemma X9_positions_distinct_witness :
  constructed md10
  ∧ TaskGenerator.sample (Some [0%Z; 2%Z]) 3 (world10 3 draws)
    = (Ok episode_0_2, world10 3 [])
  ∧ ∃ positions : list nat,
      NoDup positions
      ∧ Forall2 (λ i x, ∃ l, ds10 !! i = Some (x, l))
                positions (SampleDataset.data episode_0_2).
Proof.
  split; [reflexivity|]. split; [reflexivity|].
  exact (X9_positions_distinct (Some [0%Z; 2%Z]) 3 (world10 3 draws)
           episode_0_2 (world10 3 []) eq_refl eq_refl).
Defined.

Lemma X10_no_override_pure_witness :
  constructed md10
  ∧ np.array [0%Z; 1%Z; 2%Z] = [0%Z; 1%Z; 2%Z]
  ∧ TaskGenerator.sample None 2 (world10 2 draws)
    = (Ok episode_drawn, world10 2 [])
  ∧ TaskGenerator.self (world10 2 []) = TaskGenerator.self (world10 2 draws).
Proof.
  split; [reflexivity|]. split; [reflexivity|]. split; [reflexivity|].
  exact (X10_no_override_pure 2 (world10 2 draws) (Ok episode_drawn)
           (world10 2 []) eq_refl eq_refl eq_refl).
Defined.

Lemma X11_index_only_extended_witness :
  TaskGenerator.sample (Some [5%Z]) 1 (world10 2 draws)
  = (Raise ValueError, world10_after_5)
  ∧ ∃ extra,
      index world10_after_5
      = index (world10 2 draws) ++ ((λ c, (c, [])) <$> extra)
      ∧ NoDup extra
      ∧ ∀ c, c ∈ extra →
             (c ∉ dict_keys (index (world10 2 draws))) ∧ c ∈ [5%Z].
Proof.
  split; [reflexivity|].
  exact (X11_index_only_extended (Some [5%Z]) 1 (world10 2 draws)
           (Raise ValueError) world10_after_5 eq_refl).
Defined.

Lemma X12_episode_getitem_witness :
  TaskGenerator.sample (Some [0%Z; 2%Z]) 3 (world10 3 draws)
  = (Ok episode_0_2, world10 3 [])
  ∧ (4 < SampleDataset.__len__ episode_0_2 →
     ∃ x c i l,
       SampleDataset.__getitem__ episode_0_2 4 = Ok (x, 4 / Z.to_nat 3)
       ∧ SampleDataset.sampled_classes episode_0_2 !! (4 / Z.to_nat 3) = Some c
       ∧ i ∈ pool (world10 3 draws) c
       ∧ ds10 !! i = Some (x, l))
  ∧ (SampleDataset.__len__ episode_0_2 ≤ 4 →
     SampleDataset.__getitem__ episode_0_2 4 = Raise IndexError).
Proof.
  split; [reflexivity|].
  exact (X12_episode_getitem (Some [0%Z; 2%Z]) 3 (world10 3 draws)
           episode_0_2 (world10 3 []) 4 eq_refl).
Defined.

Lemma X13_default_sample_witness :
  MetaDataset.__init__ ds10 = Ok md10
  ∧ np.array (MetaDataset.labels md10) = MetaDataset.labels md10
  ∧ (0 < 2 ≤ Z.of_nat (length (MetaDataset.labels md10)))%Z
  ∧ ∃ tg ep w',
      TaskGenerator.__init__ md10 None 2 = Ok tg
      ∧ TaskGenerator.sample None TaskGenerator.default_shots
          (TaskGenerator.World tg draws) = (Ok ep, w')
      ∧ Z.of_nat (SampleDataset.__len__ ep) = 2%Z
      ∧ NoDup (SampleDataset.sampled_classes ep)
      ∧ TaskGenerator.self w' = tg.
Proof.
  assert (0 < 2 ≤ Z.of_nat (length (MetaDataset.labels md10)))%Z as Hways
    by (simpl; lia).
  split; [reflexivity|]. split; [reflexivity|]. split; [exact Hways|].
  exact (X13_default_sample ds10 md10 2 draws eq_refl eq_refl Hways).
Defined.

Lemma X14_drawn_classes_witness :
  TaskGenerator.sample None 2 (world10 2 draws)
  = (Ok episode_drawn, world10 2 [])
  ∧ SampleDataset.sampled_classes episode_drawn
      ⊆+ np.array (TaskGenerator.classes (TaskGenerator.self (world10 2 draws)))
  ∧ (∀ c, c ∈ TaskGenerator.classes (TaskGenerator.self (world10 2 draws)) →
          c ∈ MetaDataset.labels
                (TaskGenerator.dataset (TaskGenerator.self (world10 2 draws))))
  ∧ (np.array (TaskGenerator.classes (TaskGenerator.self (world10 2 draws)))
     = TaskGenerator.classes (TaskGenerator.self (world10 2 draws)) →
     ∀ c, c ∈ SampleDataset.sampled_classes episode_drawn →
          c ∈ TaskGenerator.classes (TaskGenerator.self (world10 2 draws))
          ∧ c ∈ MetaDataset.labels
                  (TaskGenerator.dataset (TaskGenerator.self (world10 2 draws)))).
Proof.
  split; [reflexivity|].
  exact (X14_drawn_classes 2 (world10 2 draws) episode_drawn (world10 2 [])
           eq_refl).
Defined.

(** *** Counts and classes at the limits of numpy *)

(** A sampler with [ways] below [- 2 ^ 63] passes construction, and every
    call without an override raises [OverflowError]. *)
Lemma sample_ways_below_long shots s :
  let self := TaskGenerator.mk md10 (- 2 ^ 63 - 1) [0%Z; 1%Z; 2%Z] in
  TaskGenerator.__init__ md10 None (- 2 ^ 63 - 1) = Ok self
  ∧ TaskGenerator.sample None shots (TaskGenerator.World self s)
    = (Raise OverflowError, TaskGenerator.World self s).
Proof. split; reflexivity. Qed.

Lemma discover_int64 (x : Z) :
  (- 2 ^ 63 ≤ x < 2 ^ 63)%Z → np.discover x = np.int64.
Proof.
  intros Hx. unfold np.discover.
  destruct (- 2 ^ 63 <=? x)%Z eqn:H1; [|apply Z.leb_gt in H1; lia].
  destruct (x <? 2 ^ 63)%Z eqn:H2; [done|apply Z.ltb_ge in H2; lia].
Qed.

Lemma result_type_int64 (l : list Z) :
  Forall (λ x, - 2 ^ 63 ≤ x < 2 ^ 63)%Z l →
  fold_left (λ d y, np.promote d (np.discover y)) l np.int64 = np.int64.
Proof.
  induction 1 as [|x l Hx _ IH]; simpl; [done|].
  by rewrite discover_int64.
Qed.

(** A list of integers that all fit a C long is converted to itself. *)
Lemma array_int64 (l : list Z) :
  Forall (λ x, - 2 ^ 63 ≤ x < 2 ^ 63)%Z l → np.array l = l.
Proof.
  intros Hall. unfold np.array, np.int_scalar, np.array_int, np.result_type.
  destruct Hall as [|x l Hx Hall]; [done|].
  by rewrite discover_int64, result_type_int64.
Qed.

Lemma permutation_pair {A : Type} (x y : A) s :
  ∃ s', np.random.permutation [x; y] s = ([x; y], s')
        ∨ np.random.permutation [x; y] s = ([y; x], s').
Proof.
  unfold np.random.permutation. cbn [length np.random.draw].
  destruct (np.random.next s) as [r s']. exists s'.
  pose proof (Nat.mod_upper_bound r 2) as Hlt.
  destruct (r mod 2) as [|[|j]]; [by left|by right|lia].
Qed.

(** On the dataset with the labels [2 ^ 63 + 1] and [-1], the sampler
    built with [classes] left out and [ways = 2] draws its classes from
    the array of [2 ^ 63] and [-1]: whatever the state of the generator,
    [sample(shots=1)] raises the [ValueError] of a draw from no position
    and leaves an empty list under [2 ^ 63] in the index. *)
Lemma sample_wide_labels s :
  MetaDataset.__init__ ds_wide = Ok md_wide
  ∧ TaskGenerator.__init__ md_wide None 2 = Ok tg_wide
  ∧ np.array (TaskGenerator.classes tg_wide) = [(2 ^ 63)%Z; (-1)%Z]
  ∧ ∃ w', TaskGenerator.sample None 1 (TaskGenerator.World tg_wide s)
          = (Raise ValueError, w')
          ∧ index w'
            = MetaDataset.labels_to_indices md_wide ++ [((2 ^ 63)%Z, [])]
          ∧ TaskGenerator.self w' ≠ tg_wide.
Proof.
  split_and!; [reflexivity|reflexivity|reflexivity|].
  rewrite sample_split, classes_to_sample_None.
  rewrite check_classes_Ok by done.
  change (np.array (TaskGenerator.classes
                      (TaskGenerator.self (TaskGenerator.World tg_wide s))))
    with [(2 ^ 63)%Z; (-1)%Z].
  unfold TaskGenerator.np_random_choice, np.random.choice.
  cbn [length bool_decide]. simpl.
  destruct (permutation_pair (2 ^ 63)%Z (-1)%Z s) as [s' [-> | ->]];
    (eexists; split; [reflexivity|]; split; [reflexivity|];
     intros Heq; apply (f_equal TaskGenerator.dataset) in Heq;
     apply (f_equal MetaDataset.labels_to_indices) in Heq;
     apply (f_equal length) in Heq; discriminate Heq).
Qed.
